(** * Wildlife Health Watch: the record generator and the filter-and-aggregate
      pipeline of the dashboard

    A shallow embedding of [data/generate_data.py] and [app.py].

    - [Py]      the pieces of the Python runtime the two files call:
                exceptions, naive datetimes, the [random] and [numpy.random]
                draws, integer formatting.
    - [Pandas]  the dataframe operations they call: [sort_values],
                [value_counts], [groupby(...).agg], [nunique], [head].
    - [GenerateData]  [data/generate_data.py].
    - [App]     [app.py]: [load_data], the filters and metrics of [main], the
                three chart frames and the recent-cases table.

    The facts follow: sorting and lists, the filter engine ([FilterFacts]),
    the aggregation layer ([AggregationFacts]), the random draws, dates and
    identifiers ([FormatFacts]), and the two generators ([GenerateFacts],
    [LoadFacts]). *)

From Stdlib Require Import ZArith List String Ascii Bool Lia.
From Stdlib Require Import Permutation Sorted.
From Stdlib Require Import DecimalString DecimalN.
Import ListNotations.

Local Open Scope Z_scope.

(* ================================================================== *)
(** * The Python runtime *)
(* ================================================================== *)

Module Py.

(** Exceptions the modelled calls can raise. *)
Inductive exn : Type :=
| KeyError (key : string)
| ValueError (msg : string)
| IndexError (msg : string).

Inductive result (A : Type) : Type :=
| Ok (a : A)
| Raise (e : exn).
Arguments Ok {A} a.
Arguments Raise {A} e.

(** ** Naive datetimes

    A [datetime] is a count of microseconds since 1970-01-01T00:00, and a
    calendar date is a count of days since 1970-01-01.  [strftime("%Y-%m-%d")]
    renders exactly the calendar date, so a date string is represented by the
    day number it denotes. *)

Definition datetime := Z.
Definition date := Z.

Definition usec_per_day : Z := 86400000000.

(** [timedelta(days=k)] *)
Definition timedelta (days : Z) : Z := days * usec_per_day.

(** [(a - b).days]: timedeltas are normalised with a floored day count. *)
Definition delta_days (a b : datetime) : Z := (a - b) / usec_per_day.

(** [t.date()] *)
Definition date_of (t : datetime) : date := t / usec_per_day.

(** [pd.to_datetime] of a date string: midnight of that day. *)
Definition to_datetime (d : date) : datetime := d * usec_per_day.

(** The proleptic Gregorian calendar: (year, month, day) of a day number. *)
Definition civil_from_days (z : date) : Z * Z * Z :=
  let z := z + 719468 in
  let era := z / 146097 in
  let doe := z - era * 146097 in
  let yoe := (doe - doe / 1460 + doe / 36524 - doe / 146096) / 365 in
  let y := yoe + era * 400 in
  let doy := doe - (365 * yoe + yoe / 4 - yoe / 100) in
  let mp := (5 * doy + 2) / 153 in
  let d := doy - (153 * mp + 2) / 5 + 1 in
  let m := if mp <? 10 then mp + 3 else mp - 9 in
  (if m <=? 2 then y + 1 else y, m, d).

(** [t.month] *)
Definition month (t : datetime) : Z :=
  let '(_, m, _) := civil_from_days (date_of t) in m.

(** [t.to_period("W")]: the Monday-to-Sunday week holding [t], as the pair of
    its first and last day.  Day 0 was a Thursday. *)
Definition to_period_W (t : datetime) : date * date :=
  let monday := (date_of t + 3) / 7 * 7 - 3 in
  (monday, monday + 6).

(** ** Integer formatting *)

Definition digits (z : Z) : string :=
  NilZero.string_of_uint (N.to_uint (Z.to_N z)).

Fixpoint zeros (n : nat) : string :=
  match n with
  | O => EmptyString
  | S n' => String "0" (zeros n')
  end.

Definition zfill (width : nat) (s : string) : string :=
  (zeros (width - String.length s) ++ s)%string.

(** [f"{z:04d}"]: the sign counts towards the minimum width of 4. *)
Definition fmt_04d (z : Z) : string :=
  if z <? 0 then ("-" ++ zfill 3 (digits (- z)))%string
  else zfill 4 (digits z).

(** ** Pseudo-random sources

    [random] and [numpy.random] are two separate generators, each with its
    own state.  A generator is any state type with a step producing one raw
    integer; every draw below consumes one raw integer of its generator and
    reduces it into the requested range. *)

Class PRNG (G : Type) := next : G -> Z * G.

Record rngs (G : Type) : Type := mk_rngs
  { py_random : G;       (* state of the [random] module *)
    np_random : G }.     (* state of [numpy.random] *)
Arguments mk_rngs {G}.
Arguments py_random {G}.
Arguments np_random {G}.

(** Computations that draw random numbers and may raise. *)
Definition Gen (G A : Type) : Type := rngs G -> result (A * rngs G).

Definition ret {G A} (a : A) : Gen G A := fun s => Ok (a, s).

Definition bind {G A B} (m : Gen G A) (f : A -> Gen G B) : Gen G B :=
  fun s => match m s with
           | Ok (a, s') => f a s'
           | Raise e => Raise e
           end.

Definition raise {G A} (e : exn) : Gen G A := fun _ => Raise e.

Definition lift {G A} (r : result A) : Gen G A :=
  fun s => match r with Ok a => Ok (a, s) | Raise e => Raise e end.

(** [seed(z)] of a generator: the state it is put in. *)
Class Seeding (G : Type) := seeded_with : Z -> G.

(** [np.random.seed(z)]: the state of [numpy.random] is replaced, that of the
    [random] module is left alone. *)
Definition np_random_seed {G} `{Seeding G} (z : Z) : Gen G unit :=
  fun s => Ok (tt, mk_rngs (py_random s) (seeded_with z)).

Declare Scope gen_scope.
Delimit Scope gen_scope with gen.
Notation "x <- m ;; k" := (bind m (fun x => k))
  (at level 61, m at next level, right associativity) : gen_scope.
Notation "' pat <- m ;; k" := (bind m (fun x => match x with pat => k end))
  (at level 61, pat pattern, m at next level, right associativity) : gen_scope.

Section Draws.
Context {G : Type} `{PRNG G}.

Definition py_raw : Gen G Z :=
  fun s => let (r, g) := next (py_random s) in
           Ok (r, mk_rngs g (np_random s)).

Definition np_raw : Gen G Z :=
  fun s => let (r, g) := next (np_random s) in
           Ok (r, mk_rngs (py_random s) g).

(** [seq[i]] *)
Definition getitem {A} (seq : list A) (i : Z) : result A :=
  match nth_error seq (Z.to_nat i) with
  | Some a => Ok a
  | None => Raise (IndexError "list index out of range")
  end.

(** [bisect(cum, x, 0, hi)]: how many of the first [hi] entries are [<= x]. *)
Definition bisect (cum : list Z) (x : Z) (hi : nat) : Z :=
  Z.of_nat (List.length (filter (fun c => c <=? x) (firstn hi cum))).

(** [itertools.accumulate] *)
Fixpoint accumulate (acc : Z) (ws : list Z) : list Z :=
  match ws with
  | [] => []
  | w :: ws' => (acc + w) :: accumulate (acc + w) ws'
  end.

Definition total (ws : list Z) : Z := fold_right Z.add 0 ws.

(** [random.choice(seq)] *)
Definition random_choice {A} (seq : list A) : Gen G A :=
  match seq with
  | [] => raise (IndexError "Cannot choose from an empty sequence")
  | _ => (r <- py_raw ;; lift (getitem seq (r mod Z.of_nat (List.length seq))))%gen
  end.

(** [random.randint(a, b)]: both ends included. *)
Definition random_randint (a b : Z) : Gen G Z :=
  if b <? a then raise (ValueError "empty range for randrange()")
  else (r <- py_raw ;; ret (a + r mod (b - a + 1)))%gen.

(** [random.choices(population, weights=weights, k=1)[0]] *)
Definition random_choices {A} (population : list A) (weights : list Z)
  : Gen G A :=
  if negb (List.length weights =? List.length population)%nat then
    raise (ValueError "The number of weights does not match the population")
  else if total weights <=? 0 then
    raise (ValueError "Total of weights must be greater than zero")
  else
    (r <- py_raw ;;
     lift (getitem population
             (bisect (accumulate 0 weights) (r mod total weights)
                     (List.length population - 1))))%gen.

(** [np.random.normal(0, 0.1)], in units of 1e-4 degree: a coordinate is
    rounded to four decimals after the noise is added, which on a centroid
    given to four decimals is the centroid plus the rounded noise. *)
Definition np_normal : Gen G Z := np_raw.

(** [np.random.randint(low, high)]: [high] excluded. *)
Definition np_randint (low high : Z) : Gen G Z :=
  if high <=? low then raise (ValueError "low >= high")
  else (r <- np_raw ;; ret (low + r mod (high - low)))%gen.

(** [np.random.choice(a)] *)
Definition np_choice {A} (a : list A) : Gen G A :=
  match a with
  | [] => raise (ValueError "'a' cannot be empty unless no samples are taken")
  | _ => (r <- np_raw ;; lift (getitem a (r mod Z.of_nat (List.length a))))%gen
  end.

(** [np.random.choice(a, p=p)], the probabilities written in hundredths. *)
Definition np_choice_p {A} (a : list A) (p : list Z) : Gen G A :=
  if negb (List.length p =? List.length a)%nat then
    raise (ValueError "'a' and 'p' must have same size")
  else if negb (total p =? 100) then
    raise (ValueError "probabilities do not sum to 1")
  else
    (r <- np_raw ;;
     lift (getitem a (bisect (accumulate 0 p) (r mod 100) (List.length a))))%gen.

(** [for i in range(n): data.append(body(i))] *)
Fixpoint for_each {A B} (body : A -> Gen G B) (xs : list A) : Gen G (list B) :=
  match xs with
  | [] => ret []
  | x :: xs' =>
      (r <- body x ;; rs <- for_each body xs' ;; ret (r :: rs))%gen
  end.
End Draws.

(** [range(n)] *)
Definition range (n : Z) : list Z := map Z.of_nat (seq 0 (Z.to_nat n)).

(** [d[k]] on a dict kept as an association list. *)
Fixpoint dict_get {V} (d : list (string * V)) (k : string) : result V :=
  match d with
  | [] => Raise (KeyError k)
  | (k', v) :: d' => if (k' =? k)%string then Ok v else dict_get d' k
  end.

End Py.

(* ================================================================== *)
(** * The dataframe operations *)
(* ================================================================== *)

Module Pandas.

(** A frame whose columns are all present is the list of its rows, in index
    order.

    ** Sorting

    [sort_values] is called with its default [kind="quicksort"], which pandas
    documents as not stable: the call promises an ordered rearrangement of the
    rows and nothing about rows with equal keys.  A [SortKind] is any
    algorithm that keeps that promise. *)

Class SortKind : Type :=
  { sort_rows : forall {A : Type}, (A -> Z) -> list A -> list A;
    sort_rows_perm :
      forall (A : Type) (key : A -> Z) (l : list A),
        Permutation l (sort_rows key l);
    sort_rows_sorted :
      forall (A : Type) (key : A -> Z) (l : list A),
        StronglySorted (fun x y => key x <= key y) (sort_rows key l) }.

(** [df.sort_values(by)] and [df.sort_values(by, ascending=False)].  For a
    descending sort pandas reverses the keys, sorts them ascending with the
    chosen kind and reverses the outcome. *)
Definition sort_values `{SortKind} {A} (by_ : A -> Z) (ascending : bool)
  (df : list A) : list A :=
  if ascending then sort_rows by_ df
  else rev (sort_rows by_ (rev df)).

(** [df.head(n)] *)
Definition head {A} (n : nat) (df : list A) : list A := firstn n df.

(** Insertion sort, with the test that decides whether the inserted row goes
    in front of the row met.  With [Z.leb] a row goes in front of the rows
    of equal key met on its way (the sort is stable); with [Z.ltb] it goes
    behind them. *)
Fixpoint insert_by {A} (before : Z -> Z -> bool) (key : A -> Z) (x : A)
  (l : list A) : list A :=
  match l with
  | [] => [x]
  | y :: l' =>
      if before (key x) (key y) then x :: y :: l'
      else y :: insert_by before key x l'
  end.

Definition insertion_sort {A} (before : Z -> Z -> bool) (key : A -> Z)
  (l : list A) : list A :=
  fold_right (insert_by before key) [] l.

Section Tally.
Context {K : Type} (eqb : K -> K -> bool).

(** [col.unique()]: the values in order of first appearance. *)
Fixpoint unique (col : list K) : list K :=
  match col with
  | [] => []
  | k :: col' => k :: filter (fun k' => negb (eqb k k')) (unique col')
  end.

(** [col.nunique()] *)
Definition nunique (col : list K) : Z := Z.of_nat (List.length (unique col)).

Definition count_of (k : K) (col : list K) : Z :=
  Z.of_nat (List.length (filter (eqb k) col)).

(** [col.value_counts().reset_index()]: one row per value present, sorted
    by count, largest first. *)
Definition value_counts `{SortKind} (col : list K) : list (K * Z) :=
  sort_values snd false (map (fun k => (k, count_of k col)) (unique col)).

(** [df.groupby(key)]: the groups in ascending key order ([ord] is the
    position of a key in that order), each with its rows in frame order. *)
Definition groupby `{SortKind} {A} (key : A -> K) (ord : K -> Z)
  (df : list A) : list (K * list A) :=
  map (fun k => (k, filter (fun r => eqb k (key r)) df))
      (sort_rows ord (unique (map key df))).
End Tally.

(** [col.sum()] *)
Definition sum (col : list Z) : Z := fold_right Z.add 0 col.

(** ** Frames built from records

    [pd.DataFrame(data)] takes its columns from the keys of the dicts in
    [data]: built from an empty list, the frame has no column at all, and
    naming one raises [KeyError]. *)
Record DataFrame (R : Type) : Type := mk_frame
  { columns : list string;
    rows : list R }.
Arguments mk_frame {R}.
Arguments columns {R}.
Arguments rows {R}.

Definition from_records {R} (keys : list string) (data : list R)
  : DataFrame R :=
  match data with
  | [] => mk_frame [] []
  | _ :: _ => mk_frame keys data
  end.

(** [df[name]], with [proj] reading that field of a row. *)
Definition column {R V} (df : DataFrame R) (name : string) (proj : R -> V)
  : Py.result (list V) :=
  if existsb (String.eqb name) (columns df) then Py.Ok (map proj (rows df))
  else Py.Raise (Py.KeyError name).

(** [df[name] = col], with [set] writing that field of a row. *)
Definition setitem {R V} (df : DataFrame R) (name : string)
  (set : R -> V -> R) (col : list V) : DataFrame R :=
  mk_frame
    (if existsb (String.eqb name) (columns df) then columns df
     else columns df ++ [name])
    (map (fun rv => set (fst rv) (snd rv)) (combine (rows df) col)).

(** [df.sort_values(name)] on a frame whose columns are not known to be
    there. *)
Definition sort_values_of `{SortKind} {R} (df : DataFrame R) (name : string)
  (proj : R -> Z) : Py.result (list R) :=
  if existsb (String.eqb name) (columns df)
  then Py.Ok (sort_values proj true (rows df))
  else Py.Raise (Py.KeyError name).

(** [col.isin(values)] for one entry of the column. *)
Definition isin (x : string) (values : list string) : bool :=
  existsb (String.eqb x) values.

End Pandas.

(* ================================================================== *)
(** * The case record *)
(* ================================================================== *)

(** One surveillance event: the dict both generators append to [data].
    Coordinates are in units of 1e-4 degree. *)
Record CaseRecord : Type := mk_case
  { case_id : string;
    report_date : Py.datetime;
    region : string;
    latitude : Z;
    longitude : Z;
    species : string;
    syndrome : string;
    severity : string;
    status : string;
    animals_affected : Z }.

Definition record_keys : list string :=
  ["case_id"; "report_date"; "region"; "latitude"; "longitude"; "species";
   "syndrome"; "severity"; "status"; "animals_affected"]%string.

Definition with_report_date (r : CaseRecord) (t : Py.datetime) : CaseRecord :=
  mk_case (case_id r) t (region r) (latitude r) (longitude r) (species r)
          (syndrome r) (severity r) (status r) (animals_affected r).

(* ================================================================== *)
(** * data/generate_data.py *)
(* ================================================================== *)

Module GenerateData.
Import Py Pandas.
Local Open Scope string_scope.

Definition REGIONS : list (string * (Z * Z)) :=
  [("Maasai Mara", (-14833, 351333));
   ("Amboseli", (-26527, 372606));
   ("Tsavo East", (-26857, 387578));
   ("Tsavo West", (-30167, 380667));
   ("Samburu", (5833, 375333));
   ("Lake Nakuru", (-3667, 360833));
   ("Nairobi NP", (-13733, 368581));
   ("Meru", (500, 381833))]%Z.

Definition SPECIES : list string :=
  ["African Elephant"; "Lion"; "Zebra"; "Giraffe"; "Buffalo"; "Wildebeest";
   "Hippopotamus"; "Rhino"; "Cheetah"; "Hyena"].

Definition SYNDROMES : list string :=
  ["Respiratory"; "Gastrointestinal"; "Neurological"; "Dermatological";
   "Musculoskeletal"; "Sudden Death"; "Reproductive"; "Ocular"].

Definition SEVERITY : list string := ["Low"; "Moderate"; "High"; "Critical"].

Definition STATUS : list string := ["Active"; "Resolved"; "Under Investigation"].

Section Generator.
Context {G : Type} `{PRNG G} `{SortKind}.
Local Open Scope Z_scope.
Local Open Scope gen_scope.

(** [month in [...]] *)
Definition month_in (m : Z) (ms : list Z) : bool := existsb (Z.eqb m) ms.

Definition syndrome_weights (m : Z) : list Z :=
  if month_in m [6; 7; 8] then [25; 15; 10; 15; 10; 10; 5; 10]
  else if month_in m [3; 4; 5; 11] then [15; 25; 10; 10; 10; 15; 10; 5]
  else [15; 15; 15; 15; 10; 15; 10; 5].

(** The draw of [n_affected], by severity. *)
Definition draw_n_affected (severity : string) : Gen G Z :=
  if (severity =? "Critical")%string then random_randint 5 20
  else if (severity =? "High")%string then random_randint 3 10
  else if (severity =? "Moderate")%string then random_randint 1 5
  else random_randint 1 3.

(** One pass of the loop body, for index [i].  The record holds
    [report_date] as the ["%Y-%m-%d"] string, that is, as a day number. *)
Definition record_of (start_date end_date : datetime) (i : Z)
  : Gen G CaseRecord :=
  region <- random_choice (map fst REGIONS) ;;
  '(lat, lon) <- lift (dict_get REGIONS region) ;;
  dlat <- np_normal ;;
  dlon <- np_normal ;;
  let lat := lat + dlat in
  let lon := lon + dlon in
  days_offset <- random_randint 0 365 ;;
  let report_date := start_date + timedelta days_offset in
  species <- random_choices SPECIES [15; 8; 20; 12; 18; 15; 5; 2; 3; 7] ;;
  syndrome <- random_choices SYNDROMES (syndrome_weights (month report_date)) ;;
  severity <- random_choices SEVERITY [40; 35; 20; 5] ;;
  let days_ago := delta_days end_date report_date in
  status <- (if days_ago <? 14 then random_choices STATUS [60; 20; 20]
             else if days_ago <? 60 then random_choices STATUS [30; 50; 20]
             else random_choices STATUS [10; 80; 10]) ;;
  n_affected <- draw_n_affected severity ;;
  ret (mk_case ("WHW-" ++ digits 2024 ++ "-" ++ fmt_04d (i + 1))%string
               (date_of report_date)
               region lat lon species syndrome severity status n_affected).

(** [generate_surveillance_data(n_records)], run at the instant [now]. *)
Definition generate_surveillance_data (now : datetime) (n_records : Z)
  : Gen G (list CaseRecord) :=
  let end_date := now in
  let start_date := end_date - timedelta 365 in
  data <- for_each (record_of start_date end_date) (range n_records) ;;
  let df := from_records record_keys data in
  dates <- lift (column df "report_date" report_date) ;;
  let df := setitem df "report_date" with_report_date
                    (map to_datetime dates) in
  lift (sort_values_of df "report_date" report_date).
End Generator.

End GenerateData.

(* ================================================================== *)
(** * app.py *)
(* ================================================================== *)

Module App.
Import Py Pandas.
Local Open Scope string_scope.

(** ** [load_data] *)

Definition regions : list (string * (Z * Z)) :=
  [("Maasai Mara", (-14833, 351333));
   ("Amboseli", (-26527, 372606));
   ("Tsavo East", (-26857, 387578));
   ("Tsavo West", (-30167, 380667));
   ("Samburu", (5833, 375333));
   ("Lake Nakuru", (-3667, 360833));
   ("Nairobi NP", (-13733, 368581));
   ("Meru", (500, 381833))]%Z.

Definition species_list : list string :=
  ["African Elephant"; "Lion"; "Zebra"; "Giraffe"; "Buffalo"; "Wildebeest";
   "Hippopotamus"; "Rhino"; "Cheetah"; "Hyena"].

Definition syndromes : list string :=
  ["Respiratory"; "Gastrointestinal"; "Neurological"; "Dermatological";
   "Musculoskeletal"; "Sudden Death"; "Reproductive"; "Ocular"].

Definition severity_levels : list string := ["Low"; "Moderate"; "High"; "Critical"].

Definition status_options : list string :=
  ["Active"; "Resolved"; "Under Investigation"].

Definition n_records : Z := 500.

Section Loader.
Context {G : Type} `{PRNG G} `{SortKind} `{Seeding G}.
Local Open Scope Z_scope.
Local Open Scope gen_scope.

(** One pass of the loop body, for index [i]. *)
Definition record_of (start_date end_date : datetime) (i : Z)
  : Gen G CaseRecord :=
  region <- np_choice (map fst regions) ;;
  '(lat, lon) <- lift (dict_get regions region) ;;
  dlat <- np_normal ;;
  dlon <- np_normal ;;
  let lat := lat + dlat in
  let lon := lon + dlon in
  days_offset <- np_randint 0 365 ;;
  let report_date := start_date + timedelta days_offset in
  species <- np_choice_p species_list [15; 8; 20; 12; 18; 12; 5; 2; 3; 5] ;;
  syndrome <- np_choice syndromes ;;
  severity <- np_choice_p severity_levels [40; 35; 20; 5] ;;
  let days_ago := delta_days end_date report_date in
  status <- (if days_ago <? 14 then np_choice_p status_options [60; 20; 20]
             else if days_ago <? 60 then np_choice_p status_options [30; 50; 20]
             else np_choice_p status_options [10; 80; 10]) ;;
  n_affected <- np_randint 1 10 ;;
  ret (mk_case ("WHW-2024-" ++ fmt_04d (i + 1))%string
               report_date
               region lat lon species syndrome severity status n_affected).

(** [load_data()], run at the instant [now]. *)
Definition load_data (now : datetime) : Gen G (list CaseRecord) :=
  _ <- np_random_seed 42 ;;
  let end_date := now in
  let start_date := end_date - timedelta 365 in
  data <- for_each (record_of start_date end_date) (range n_records) ;;
  let df := from_records record_keys data in
  lift (sort_values_of df "report_date" report_date).
End Loader.

(** ** The sidebar and the filters of [main] *)

(** What the sidebar widgets return. *)
Record Widgets : Type := mk_widgets
  { date_range : list date;              (* the tuple [st.date_input] gives *)
    selected_region : string;
    selected_species : string;
    selected_severity : list string;
    selected_status : list string }.

(** Truth value of a list: empty is false. *)
Definition truthy {A} (l : list A) : bool :=
  match l with [] => false | _ :: _ => true end.

(** The "Apply filters" block. *)
Definition apply_filters (w : Widgets) (df : list CaseRecord)
  : list CaseRecord :=
  let filtered_df := df in
  let filtered_df :=
    match date_range w with
    | [d0; d1] =>
        filter (fun r => (d0 <=? date_of (report_date r))%Z
                         && (date_of (report_date r) <=? d1)%Z) filtered_df
    | _ => filtered_df
    end in
  let filtered_df :=
    if negb (selected_region w =? "All")
    then filter (fun r => region r =? selected_region w) filtered_df
    else filtered_df in
  let filtered_df :=
    if negb (selected_species w =? "All")
    then filter (fun r => species r =? selected_species w) filtered_df
    else filtered_df in
  let filtered_df :=
    if truthy (selected_severity w)
    then filter (fun r => isin (severity r) (selected_severity w)) filtered_df
    else filtered_df in
  let filtered_df :=
    if truthy (selected_status w)
    then filter (fun r => isin (status r) (selected_status w)) filtered_df
    else filtered_df in
  filtered_df.

(** The store and the view held while [main] runs: [filtered_df] starts as
    [df.copy()] and every filter step builds a new frame. *)
Record Session : Type := mk_session
  { df : list CaseRecord;
    filtered_df : list CaseRecord }.

Definition run_filters (w : Widgets) (store : list CaseRecord) : Session :=
  mk_session store (apply_filters w store).

(** ** Key metrics *)

Record Metrics : Type := mk_metrics
  { total_cases : Z;
    this_month : Z;
    active_cases : Z;
    critical_cases : Z;
    total_animals : Z;
    regions_affected : Z }.

Definition len {A} (l : list A) : Z := Z.of_nat (List.length l).

Definition key_metrics (now : datetime) (filtered_df : list CaseRecord)
  : Metrics :=
  {| total_cases := len filtered_df;
     this_month :=
       len (filter (fun r => (now - timedelta 30 <? report_date r)%Z)
                   filtered_df);
     active_cases := len (filter (fun r => status r =? "Active") filtered_df);
     critical_cases :=
       len (filter (fun r => severity r =? "Critical") filtered_df);
     total_animals := sum (map animals_affected filtered_df);
     regions_affected := nunique String.eqb (map region filtered_df) |}.

(** ** The frames behind the charts *)

Record WeekRow : Type := mk_week
  { Week : date * date;
    Cases : Z;
    Animals_Affected : Z }.

Definition week_eqb (a b : date * date) : bool :=
  ((fst a =? fst b) && (snd a =? snd b))%Z.

(** A row of the recent-cases table. *)
Record DisplayRow : Type := mk_display
  { Case_ID : string;
    Date : date;
    Region : string;
    Species : string;
    Syndrome : string;
    Severity : string;
    Status : string;
    Animals : Z }.

(** What a slot of the page shows: a chart, the notice, or nothing. *)
Inductive panel (A : Type) : Type :=
| Chart (a : A)
| Warning (msg : string)
| Blank.
Arguments Chart {A} a.
Arguments Warning {A} msg.
Arguments Blank {A}.

Record Page : Type := mk_page
  { metrics : Metrics;
    map_panel : panel (list CaseRecord);
    timeline_panel : panel (list WeekRow);
    species_panel : panel (list (string * Z));
    syndrome_panel : panel (list (string * Z));
    recent_cases : list DisplayRow }.

Definition no_data : string := "No data available for selected filters.".

Section Charts.
Context `{SortKind}.

(** The [daily] frame of [create_timeline]. *)
Definition create_timeline (df : list CaseRecord) : list WeekRow :=
  map (fun g : (date * date) * list CaseRecord =>
         mk_week (fst g) (len (map case_id (snd g)))
                 (sum (map animals_affected (snd g))))
      (groupby week_eqb (fun r => to_period_W (report_date r)) fst df).

(** The [species_counts] frame of [create_species_chart]. *)
Definition create_species_chart (df : list CaseRecord) : list (string * Z) :=
  value_counts String.eqb (map species df).

(** The [syndrome_counts] frame of [create_syndrome_chart]. *)
Definition create_syndrome_chart (df : list CaseRecord) : list (string * Z) :=
  value_counts String.eqb (map syndrome df).

(** The frame [create_map] plots, as it is. *)
Definition create_map (df : list CaseRecord) : list CaseRecord := df.

(** ** Recent cases *)

Definition recent_df (filtered_df : list CaseRecord) : list CaseRecord :=
  head 10 (sort_values report_date false filtered_df).

Definition display_df (filtered_df : list CaseRecord) : list DisplayRow :=
  map (fun r => mk_display (case_id r) (date_of (report_date r)) (region r)
                           (species r) (syndrome r) (severity r) (status r)
                           (animals_affected r))
      (recent_df filtered_df).

(** ** The page *)

(** [main] from the loaded frame on: [w] is what the sidebar returns and
    [now] the instant the metrics are computed. *)
Definition render (now : datetime) (w : Widgets) (store : list CaseRecord)
  : Page :=
  let filtered_df := filtered_df (run_filters w store) in
  let nonempty := (0 <? len filtered_df)%Z in
  {| metrics := key_metrics now filtered_df;
     map_panel :=
       if nonempty then Chart (create_map filtered_df) else Warning no_data;
     timeline_panel :=
       if nonempty then Chart (create_timeline filtered_df)
       else Warning no_data;
     species_panel :=
       if nonempty then Chart (create_species_chart filtered_df) else Blank;
     syndrome_panel :=
       if nonempty then Chart (create_syndrome_chart filtered_df) else Blank;
     recent_cases := display_df filtered_df |}.

(** [main()]: the frame is loaded at [loaded], the page drawn at [now]. *)
Definition main {G : Type} `{PRNG G} `{Seeding G} (loaded now : datetime)
  (w : Widgets) : Gen G Page :=
  (store <- load_data loaded ;; ret (render now w store))%gen.
End Charts.

End App.

(* ================================================================== *)
(** * Facts about lists and sorting *)
(* ================================================================== *)

Section ListFacts.
Context {A : Type}.

Lemma In_firstn (n : nat) (l : list A) (x : A) :
  In x (firstn n l) -> In x l.
Proof.
  revert n; induction l as [|a l IH]; intros [|n]; simpl; try tauto.
  intros [E|HI]; [now left | right; eauto].
Qed.

Lemma length_firstn_le (n : nat) (l : list A) :
  (List.length (firstn n l) <= n)%nat.
Proof.
  revert l; induction n as [|n IH]; intros [|a l]; simpl; try lia.
  specialize (IH l); lia.
Qed.

Lemma StronglySorted_firstn (R : A -> A -> Prop) (n : nat) (l : list A) :
  StronglySorted R l -> StronglySorted R (firstn n l).
Proof.
  intros HS; revert n; induction HS as [|a l HS IH Ha]; intros [|n]; simpl;
    try constructor.
  - apply IH.
  - rewrite Forall_forall in *; intros x Hx; apply Ha.
    now apply In_firstn in Hx.
Qed.

Lemma StronglySorted_app (R : A -> A -> Prop) (l1 l2 : list A) :
  StronglySorted R l1 -> StronglySorted R l2 ->
  (forall x y, In x l1 -> In y l2 -> R x y) ->
  StronglySorted R (l1 ++ l2).
Proof.
  intros H1 H2; induction H1 as [|a l HS IH Ha]; intros Hc; simpl; auto.
  constructor.
  - apply IH; intros x y Hx Hy; apply Hc; simpl; auto.
  - rewrite Forall_forall in *; intros x Hx.
    apply in_app_or in Hx as [Hx|Hx]; [now apply Ha | apply Hc; simpl; auto].
Qed.

Lemma StronglySorted_app_cross (R : A -> A -> Prop) (l1 l2 : list A) :
  StronglySorted R (l1 ++ l2) ->
  forall x y, In x l1 -> In y l2 -> R x y.
Proof.
  induction l1 as [|a l1 IH]; simpl; intros HS x y Hx Hy; [tauto|].
  apply StronglySorted_inv in HS as [HS Ha].
  destruct Hx as [<-|Hx]; [|now apply IH].
  rewrite Forall_forall in Ha; apply Ha, in_or_app; now right.
Qed.

Lemma StronglySorted_rev (R : A -> A -> Prop) (l : list A) :
  StronglySorted R l -> StronglySorted (fun x y => R y x) (rev l).
Proof.
  induction 1 as [|a l HS IH Ha]; simpl; [constructor|].
  apply StronglySorted_app; auto.
  - repeat constructor.
  - intros x y Hx [<-|[]]. rewrite Forall_forall in Ha.
    apply Ha. now apply in_rev.
Qed.


Lemma StronglySorted_map {B} (R : B -> B -> Prop) (g : A -> B) (l : list A) :
  StronglySorted (fun x y => R (g x) (g y)) l -> StronglySorted R (map g l).
Proof.
  induction 1 as [|a l HS IH Ha]; simpl; constructor; auto.
  rewrite Forall_forall in *; intros y Hy.
  apply in_map_iff in Hy as (x & <- & Hx); auto.
Qed.

Lemma filter_filter (f g : A -> bool) (l : list A) :
  filter g (filter f l) = filter (fun x => f x && g x) l.
Proof.
  induction l as [|a l IH]; simpl; auto.
  destruct (f a); simpl; [destruct (g a)|]; now rewrite IH.
Qed.

Lemma Permutation_nil_eq (l : list A) : Permutation [] l -> l = [].
Proof. apply Permutation_nil. Qed.
End ListFacts.

Lemma sum_app (l1 l2 : list Z) :
  Pandas.sum (l1 ++ l2) = Pandas.sum l1 + Pandas.sum l2.
Proof. induction l1; simpl; lia. Qed.

Lemma sum_Permutation (l1 l2 : list Z) :
  Permutation l1 l2 -> Pandas.sum l1 = Pandas.sum l2.
Proof. induction 1; simpl; lia. Qed.

(** ** Insertion sort is a sort kind, whichever way it treats equal keys *)

Section InsertionSort.
Context {A : Type} (before : Z -> Z -> bool) (key : A -> Z).
Hypothesis before_le : forall a b, before a b = true -> a <= b.
Hypothesis before_ge : forall a b, before a b = false -> b <= a.

Lemma insert_by_perm (x : A) (l : list A) :
  Permutation (x :: l) (Pandas.insert_by before key x l).
Proof.
  induction l as [|y l IH]; simpl; auto.
  destruct (before (key x) (key y)); auto.
  rewrite perm_swap; auto.
Qed.

Lemma insert_by_sorted (x : A) (l : list A) :
  StronglySorted (fun a b => key a <= key b) l ->
  StronglySorted (fun a b => key a <= key b) (Pandas.insert_by before key x l).
Proof.
  induction 1 as [|y l HS IH Hy]; simpl; [repeat constructor|].
  destruct (before (key x) (key y)) eqn:E.
  - apply before_le in E. constructor; [now constructor|].
    constructor; auto.
    rewrite Forall_forall in *; intros z Hz; specialize (Hy z Hz); lia.
  - apply before_ge in E. constructor; auto.
    rewrite Forall_forall in *; intros z Hz.
    apply (Permutation_in _ (Permutation_sym (insert_by_perm x l))) in Hz.
    destruct Hz as [<-|Hz]; auto.
Qed.

Lemma insertion_sort_perm (l : list A) :
  Permutation l (Pandas.insertion_sort before key l).
Proof.
  induction l as [|x l IH]; simpl; auto.
  rewrite <- insert_by_perm; auto.
Qed.

Lemma insertion_sort_sorted (l : list A) :
  StronglySorted (fun a b => key a <= key b)
                 (Pandas.insertion_sort before key l).
Proof.
  induction l as [|x l IH]; simpl; [constructor|].
  now apply insert_by_sorted.
Qed.
End InsertionSort.

(** [kind="stable"]: rows of equal key keep their order. *)
#[export] Instance stable_kind : Pandas.SortKind :=
  {| Pandas.sort_rows := fun A key l => Pandas.insertion_sort Z.leb key l;
     Pandas.sort_rows_perm := fun A key l =>
       insertion_sort_perm Z.leb key l;
     Pandas.sort_rows_sorted := fun A key l =>
       insertion_sort_sorted Z.leb key
         (fun a b E => proj1 (Z.leb_le a b) E)
         (fun a b E => Z.lt_le_incl _ _ (proj1 (Z.leb_gt a b) E)) l |}.

Section SortValues.
Context `{Pandas.SortKind} {A : Type} (key : A -> Z).

Lemma sort_values_perm (ascending : bool) (l : list A) :
  Permutation l (Pandas.sort_values key ascending l).
Proof.
  unfold Pandas.sort_values; destruct ascending.
  - apply Pandas.sort_rows_perm.
  - rewrite <- Permutation_rev, <- Pandas.sort_rows_perm.
    apply Permutation_rev.
Qed.

Lemma sort_values_ascending (l : list A) :
  StronglySorted (fun a b => key a <= key b) (Pandas.sort_values key true l).
Proof. apply Pandas.sort_rows_sorted. Qed.

Lemma sort_values_descending (l : list A) :
  StronglySorted (fun a b => key b <= key a) (Pandas.sort_values key false l).
Proof.
  unfold Pandas.sort_values.
  apply (StronglySorted_rev (fun a b => key a <= key b)).
  apply Pandas.sort_rows_sorted.
Qed.

Lemma sort_values_nil (ascending : bool) :
  Pandas.sort_values key ascending [] = [].
Proof. apply Permutation_nil, sort_values_perm. Qed.
End SortValues.

(* ================================================================== *)
(** * The filter engine *)
(* ================================================================== *)

Module FilterFacts.
Import Py Pandas App.
Local Open Scope string_scope.

(** ** The clauses, as the specification words them

    A clause is present when its widget asks for something: a two-ended date
    range, a region or species other than ["All"], a selection that is not
    empty.  An absent clause is satisfied by every record. *)

Definition date_clause (w : Widgets) (r : CaseRecord) : bool :=
  match date_range w with
  | [d0; d1] =>
      (d0 <=? date_of (report_date r))%Z && (date_of (report_date r) <=? d1)%Z
  | _ => true
  end.

Definition region_clause (w : Widgets) (r : CaseRecord) : bool :=
  if selected_region w =? "All" then true else region r =? selected_region w.

Definition species_clause (w : Widgets) (r : CaseRecord) : bool :=
  if selected_species w =? "All" then true
  else species r =? selected_species w.

Definition severity_clause (w : Widgets) (r : CaseRecord) : bool :=
  match selected_severity w with
  | [] => true
  | _ :: _ => isin (severity r) (selected_severity w)
  end.

Definition status_clause (w : Widgets) (r : CaseRecord) : bool :=
  match selected_status w with
  | [] => true
  | _ :: _ => isin (status r) (selected_status w)
  end.

(** The conjunction of the clauses. *)
Definition satisfies (w : Widgets) (r : CaseRecord) : bool :=
  date_clause w r && region_clause w r && species_clause w r
  && severity_clause w r && status_clause w r.

(** The conjunction of every clause but the one on severity. *)
Definition satisfies_but_severity (w : Widgets) (r : CaseRecord) : bool :=
  date_clause w r && region_clause w r && species_clause w r
  && status_clause w r.


(** Ascending by [report_date]. *)
Definition ascending (df : list CaseRecord) : Prop :=
  StronglySorted (fun a b => report_date a <= report_date b)%Z df.

(** ** Sample sidebar states and records *)

Definition no_filter : Widgets := mk_widgets [] "All" "All" [] [].

Definition lion_case : CaseRecord :=
  mk_case "WHW-2024-0001" (to_datetime 19800) "Meru" 512 381790 "Lion"
          "Ocular" "High" "Active" 4.

Definition zebra_case : CaseRecord :=
  mk_case "WHW-2024-0002" (to_datetime 19800) "Samburu" 5840 375301 "Zebra"
          "Respiratory" "Low" "Resolved" 2.


Lemma filter_step {A} (b : bool) (p : A -> bool) (l : list A) :
  (if b then filter p l else l) = filter (fun r => if b then p r else true) l.
Proof. destruct b; [reflexivity | now rewrite filter_true]. Qed.

(** The filter block is one pass keeping the records that satisfy every
    clause. *)
Lemma apply_filters_filter (w : Widgets) (df : list CaseRecord) :
  apply_filters w df = filter (satisfies w) df.
Proof.
  unfold apply_filters.
  rewrite !filter_step.
  replace (match date_range w with
           | [d0; d1] =>
               filter (fun r => (d0 <=? date_of (report_date r))%Z
                                && (date_of (report_date r) <=? d1)%Z) df
           | _ => df
           end) with (filter (date_clause w) df).
  - rewrite !filter_filter. apply filter_ext; intros r.
    unfold satisfies, region_clause, species_clause, severity_clause,
      status_clause, truthy.
    destruct (selected_region w =? "All"), (selected_species w =? "All"),
      (selected_severity w), (selected_status w); simpl;
      rewrite ?andb_true_r, ?andb_assoc; reflexivity.
  - unfold date_clause.
    destruct (date_range w) as [|d0 [|d1 [|d2 ds]]];
      auto using filter_true.
Qed.

(** C1, as stated, fails: with nothing selected under "Severity" and no other
    filter set, a one-record store comes back whole instead of empty. *)
Lemma C1_empty_selection_keeps_records :
  selected_severity no_filter = []
  /\ apply_filters no_filter [lion_case] = [lion_case]
  /\ apply_filters no_filter [lion_case] <> [].
Proof. repeat split; discriminate. Qed.

(** C1 (amended): an empty severity selection switches the severity clause
    off.  The filter block then keeps exactly the records that satisfy the
    other clauses, whatever their severity. *)
Theorem C1_empty_severity_is_no_constraint (w : Widgets) (df : list CaseRecord) :
  selected_severity w = [] ->
  apply_filters w df = filter (satisfies_but_severity w) df
  /\ forall r, In r df -> satisfies_but_severity w r = true ->
               In r (apply_filters w df).
Proof.
  intros E.
  assert (Heq : apply_filters w df = filter (satisfies_but_severity w) df).
  { rewrite apply_filters_filter. apply filter_ext; intros r.
    unfold satisfies, satisfies_but_severity, severity_clause.
    rewrite E. now rewrite andb_true_r. }
  split; [exact Heq|].
  intros r Hr Hs. rewrite Heq. apply filter_In; auto.
Qed.

Lemma C1_empty_severity_witness :
  apply_filters no_filter [lion_case; zebra_case]
  = filter (satisfies_but_severity no_filter) [lion_case; zebra_case]
  /\ forall r, In r [lion_case; zebra_case] ->
               satisfies_but_severity no_filter r = true ->
               In r (apply_filters no_filter [lion_case; zebra_case]).
Proof.
  apply (C1_empty_severity_is_no_constraint no_filter [lion_case; zebra_case]).
  reflexivity.
Defined.



(** C10: filtering a filtered frame again with the same sidebar state changes
    nothing. *)
Theorem C10_filter_idempotent (w : Widgets) (df : list CaseRecord) :
  apply_filters w (apply_filters w df) = apply_filters w df.
Proof.
  rewrite !apply_filters_filter, filter_filter.
  apply filter_ext; intros r. now destruct (satisfies w r).
Qed.

End FilterFacts.

(* ================================================================== *)
(** * The aggregation layer *)
(* ================================================================== *)

Section TallyFacts.
Context {K : Type} (eqb : K -> K -> bool).
Hypothesis eqb_eq : forall a b, eqb a b = true <-> a = b.

Lemma In_unique (k : K) (col : list K) :
  In k (Pandas.unique eqb col) <-> In k col.
Proof.
  induction col as [|c col IH]; simpl; [tauto|].
  rewrite filter_In, IH. split.
  - intros [E|[Hk _]]; auto.
  - intros [E|Hk]; auto.
    destruct (eqb c k) eqn:E; [left; now apply eqb_eq | right; auto].
Qed.

Lemma NoDup_unique (col : list K) : NoDup (Pandas.unique eqb col).
Proof.
  induction col as [|c col IH]; simpl; constructor.
  - rewrite filter_In. intros [_ E].
    assert (Hc : eqb c c = true) by now apply eqb_eq.
    rewrite Hc in E; discriminate.
  - now apply NoDup_filter.
Qed.

Lemma count_of_cons (k c : K) (col : list K) :
  Pandas.count_of eqb k (c :: col)
  = (if eqb k c then 1 else 0) + Pandas.count_of eqb k col.
Proof.
  unfold Pandas.count_of; cbn [filter].
  destruct (eqb k c); cbn [List.length]; lia.
Qed.

(** Among distinct values, exactly one equals a value of the list. *)
Lemma sum_indicator (c : K) (us : list K) :
  NoDup us -> In c us ->
  Pandas.sum (map (fun k => if eqb k c then 1 else 0) us) = 1.
Proof.
  induction 1 as [|u us Hu Hnd IH]; simpl; [tauto|].
  assert (Hzero : forall vs, ~ In c vs ->
            Pandas.sum (map (fun k => if eqb k c then 1 else 0) vs) = 0).
  { induction vs as [|v vs IHv]; simpl; intros Hn; auto.
    destruct (eqb v c) eqn:E; [apply eqb_eq in E; tauto|].
    rewrite IHv; tauto. }
  intros [<-|Hc].
  - replace (eqb u u) with true by (symmetry; now apply eqb_eq).
    rewrite Hzero; auto.
  - destruct (eqb u c) eqn:E.
    + apply eqb_eq in E; subst; tauto.
    + rewrite IH; auto.
Qed.

(** The counts of distinct values that cover a column add up to its
    length. *)
Lemma sum_count_of (us col : list K) :
  NoDup us -> (forall k, In k col -> In k us) ->
  Pandas.sum (map (fun k => Pandas.count_of eqb k col) us) = App.len col.
Proof.
  intros Hnd; induction col as [|c col IH]; intros Hcov.
  - unfold App.len; simpl. clear; induction us; simpl; auto.
  - rewrite (map_ext _ (fun k => (if eqb k c then 1 else 0)
                                 + Pandas.count_of eqb k col))
      by (intros; apply count_of_cons).
    assert (Hsplit : forall (f g : K -> Z) vs,
              Pandas.sum (map (fun k => f k + g k) vs)
              = Pandas.sum (map f vs) + Pandas.sum (map g vs)).
    { induction vs as [|v vs IHv]; simpl; [reflexivity | rewrite IHv; lia]. }
    rewrite Hsplit, sum_indicator, IH; auto using in_eq, in_cons.
    unfold App.len; cbn [List.length]; lia.
Qed.

(** [value_counts] accounts for every entry of the column once. *)
Lemma value_counts_total `{Pandas.SortKind} (col : list K) :
  Pandas.sum (map snd (Pandas.value_counts eqb col)) = App.len col.
Proof.
  unfold Pandas.value_counts.
  rewrite <- (sum_Permutation _ _
                (Permutation_map snd (sort_values_perm snd false _))).
  rewrite map_map; simpl.
  apply sum_count_of; [apply NoDup_unique | intros k; apply In_unique].
Qed.

(** [groupby] puts every row in one group. *)
Lemma groupby_total `{Pandas.SortKind} {A} (key : A -> K) (ord : K -> Z)
  (df : list A) :
  Pandas.sum (map (fun g => App.len (snd g)) (Pandas.groupby eqb key ord df))
  = App.len df.
Proof.
  unfold Pandas.groupby. rewrite map_map; simpl.
  rewrite (map_ext _ (fun k => Pandas.count_of eqb k (map key df))).
  - rewrite sum_count_of.
    + unfold App.len; now rewrite length_map.
    + eapply Permutation_NoDup;
        [apply Pandas.sort_rows_perm | apply NoDup_unique].
    + intros k Hk. eapply Permutation_in; [apply Pandas.sort_rows_perm|].
      now apply In_unique.
  - intros k. unfold Pandas.count_of, App.len. f_equal.
    induction df as [|r df IH]; simpl; auto.
    destruct (eqb k (key r)); simpl; now rewrite IH.
Qed.
End TallyFacts.

Lemma week_eqb_eq (a b : Py.date * Py.date) :
  App.week_eqb a b = true <-> a = b.
Proof.
  destruct a as [a1 a2], b as [b1 b2]; unfold App.week_eqb; simpl.
  rewrite andb_true_iff, !Z.eqb_eq. split; [intros [-> ->] | intros [= -> ->]];
    auto.
Qed.

Module AggregationFacts.
Import Py Pandas App FilterFacts.
Local Open Scope string_scope.

Definition zero_metrics : Metrics := mk_metrics 0 0 0 0 0 0.

(** [a] comes somewhere before [b] in [l]. *)
Definition precedes (a b : CaseRecord) (l : list CaseRecord) : Prop :=
  exists i j, (i < j)%nat /\ nth_error l i = Some a /\ nth_error l j = Some b.

(** Rows that share a [report_date] appear in [out] in the order they have
    in [df]. *)
Definition ties_in_frame_order (df out : list CaseRecord) : Prop :=
  forall a b, report_date a = report_date b ->
              precedes a b out -> precedes a b df.

(** A sidebar state that no record of the samples matches. *)
Definition only_tsavo : Widgets := mk_widgets [] "Tsavo East" "All" [] [].

(** C6: the weekly case counts, the species counts and the syndrome counts
    each add up to the number of records in the filtered frame, the empty
    frame included. *)
Theorem C6_counts_sum_to_total `{SortKind} (now : datetime)
  (filtered : list CaseRecord) :
  sum (map Cases (create_timeline filtered))
  = total_cases (key_metrics now filtered)
  /\ sum (map snd (create_species_chart filtered))
     = total_cases (key_metrics now filtered)
  /\ sum (map snd (create_syndrome_chart filtered))
     = total_cases (key_metrics now filtered).
Proof.
  simpl. split; [|split].
  - unfold create_timeline. rewrite map_map; simpl.
    rewrite <- (groupby_total week_eqb week_eqb_eq
                  (fun r => to_period_W (report_date r)) fst filtered).
    f_equal. apply map_ext; intros g. unfold len. now rewrite length_map.
  - unfold create_species_chart.
    rewrite (value_counts_total String.eqb String.eqb_eq).
    unfold len; now rewrite length_map.
  - unfold create_syndrome_chart.
    rewrite (value_counts_total String.eqb String.eqb_eq).
    unfold len; now rewrite length_map.
Qed.

Lemma value_counts_nil `{SortKind} : value_counts String.eqb [] = [].
Proof. exact (sort_values_nil snd false). Qed.

Lemma create_timeline_nil `{SortKind} : create_timeline [] = [].
Proof.
  unfold create_timeline, groupby; cbn [map unique].
  match goal with
  | |- context [sort_rows ?f ?l] =>
      rewrite (Permutation_nil (sort_rows_perm _ f l))
  end.
  reflexivity.
Qed.

(** C7: when the filters leave no record, every metric is zero, the weekly
    series and the two tallies are empty, the page shows its notice in place
    of the map and the timeline, and the table has no row. *)
Theorem C7_empty_frame_gives_zeros `{SortKind} (now : datetime) (w : Widgets)
  (store : list CaseRecord) :
  apply_filters w store = [] ->
  metrics (render now w store) = zero_metrics
  /\ create_timeline (apply_filters w store) = []
  /\ create_species_chart (apply_filters w store) = []
  /\ create_syndrome_chart (apply_filters w store) = []
  /\ map_panel (render now w store) = Warning no_data
  /\ timeline_panel (render now w store) = Warning no_data
  /\ species_panel (render now w store) = Blank
  /\ syndrome_panel (render now w store) = Blank
  /\ recent_cases (render now w store) = [].
Proof.
  intros E. unfold render, run_filters.
  cbn [filtered_df metrics map_panel timeline_panel species_panel
       syndrome_panel recent_cases].
  rewrite E. repeat apply conj; try reflexivity.
  - apply create_timeline_nil.
  - apply value_counts_nil.
  - apply value_counts_nil.
  - unfold display_df, recent_df. now rewrite sort_values_nil.
Qed.

Lemma C7_empty_frame_witness :
  apply_filters only_tsavo [lion_case; zebra_case] = []
  /\ metrics (render (H:=stable_kind) (to_datetime 19810) only_tsavo
                     [lion_case; zebra_case]) = zero_metrics.
Proof.
  split; [reflexivity|].
  apply (C7_empty_frame_gives_zeros (H:=stable_kind) (to_datetime 19810)
           only_tsavo [lion_case; zebra_case]).
  reflexivity.
Defined.

Lemma StronglySorted_weaken {A} (R1 R2 : A -> A -> Prop) (l : list A) :
  (forall x y, R1 x y -> R2 x y) ->
  StronglySorted R1 l -> StronglySorted R2 l.
Proof.
  intros Himp; induction 1 as [|a l HS IH Ha]; constructor; auto.
  rewrite Forall_forall in *; auto.
Qed.

Lemma date_of_le (s t : datetime) : (s <= t)%Z -> (date_of s <= date_of t)%Z.
Proof. intros Hle. apply Z.div_le_mono; [reflexivity | exact Hle]. Qed.

(** C5 (amended): the recent table has at most 10 rows, from newest to
    oldest report date; its rows are records of the filtered frame, each
    taken once, and no record left out is newer than a record shown.  The
    order of records that share a report date is whatever the sort kind
    yields. *)
Theorem C5_recent_table_newest_first `{SortKind} (filtered : list CaseRecord) :
  (List.length (display_df filtered) <= 10)%nat
  /\ StronglySorted (fun a b => report_date b <= report_date a)%Z
                    (recent_df filtered)
  /\ StronglySorted (fun a b => Date b <= Date a)%Z (display_df filtered)
  /\ exists older,
       Permutation filtered (recent_df filtered ++ older)
       /\ forall r o, In r (recent_df filtered) -> In o older ->
                      (report_date o <= report_date r)%Z.
Proof.
  assert (Hdesc : StronglySorted (fun a b => report_date b <= report_date a)%Z
                                 (sort_values report_date false filtered))
    by apply sort_values_descending.
  unfold display_df, recent_df, head.
  split; [rewrite length_map; apply length_firstn_le|].
  split; [now apply StronglySorted_firstn|].
  split.
  - apply StronglySorted_map; cbn [Date].
    apply (StronglySorted_weaken
             (fun a b => report_date b <= report_date a)%Z);
      [intros x y; apply date_of_le | now apply StronglySorted_firstn].
  - exists (skipn 10 (sort_values report_date false filtered)). split.
    + rewrite firstn_skipn. apply sort_values_perm.
    + intros r o Hr Ho.
      rewrite <- (firstn_skipn 10) in Hdesc.
      apply (StronglySorted_app_cross _ _ _ Hdesc r o Hr Ho).
Qed.

End AggregationFacts.

(* ================================================================== *)
(** * Random draws *)
(* ================================================================== *)

Section DrawFacts.
Import Py.
Context {G : Type} `{PRNG G}.

(** [m] returns, from every state, a value that satisfies [P]. *)
Definition always {A} (m : Gen G A) (P : A -> Prop) : Prop :=
  forall s, exists a s', m s = Ok (a, s') /\ P a.

Lemma always_ret {A} (a : A) (P : A -> Prop) : P a -> always (ret a) P.
Proof. intros HP s; exists a, s; auto. Qed.

Lemma always_bind {A B} (m : Gen G A) (f : A -> Gen G B)
  (P : A -> Prop) (Q : B -> Prop) :
  always m P -> (forall a, P a -> always (f a) Q) -> always (bind m f) Q.
Proof.
  intros Hm Hf s. destruct (Hm s) as (a & s1 & E & HP).
  destruct (Hf a HP s1) as (b & s2 & E2 & HQ).
  exists b, s2. unfold bind; rewrite E; auto.
Qed.

Lemma always_weaken {A} (m : Gen G A) (P Q : A -> Prop) :
  always m P -> (forall a, P a -> Q a) -> always m Q.
Proof.
  intros Hm Himp s. destruct (Hm s) as (a & s1 & E & HP).
  exists a, s1; auto.
Qed.

Lemma always_lift {A} (r : result A) (a : A) (P : A -> Prop) :
  r = Ok a -> P a -> always (lift r) P.
Proof. intros -> HP s; exists a, s; auto. Qed.

Lemma always_py_raw : always py_raw (fun _ => True).
Proof.
  intros s; unfold py_raw. destruct (next (py_random s)) as [r g]; eauto.
Qed.

Lemma always_np_raw : always np_raw (fun _ => True).
Proof.
  intros s; unfold np_raw. destruct (next (np_random s)) as [r g]; eauto.
Qed.

Lemma getitem_in_range {A} (seq : list A) (i : Z) :
  0 <= i < Z.of_nat (List.length seq) ->
  exists a, getitem seq i = Ok a /\ In a seq.
Proof.
  intros Hi. unfold getitem.
  destruct (nth_error seq (Z.to_nat i)) as [a|] eqn:E.
  - exists a; split; auto. eapply nth_error_In; eauto.
  - apply nth_error_None in E. lia.
Qed.

Lemma always_getitem {A} (seq : list A) (i : Z) :
  0 <= i < Z.of_nat (List.length seq) ->
  always (lift (getitem seq i)) (fun a => In a seq).
Proof.
  intros Hi. destruct (getitem_in_range seq i Hi) as (a & E & Ha).
  now apply (always_lift _ a).
Qed.

Lemma always_random_choice {A} (seq : list A) :
  seq <> [] -> always (random_choice seq) (fun a => In a seq).
Proof.
  intros Hne. destruct seq as [|a0 seq0]; [congruence|].
  unfold random_choice.
  eapply always_bind; [apply always_py_raw|]. intros r _.
  apply always_getitem. apply Z.mod_pos_bound. cbn [List.length]; lia.
Qed.

Lemma always_np_choice {A} (a : list A) :
  a <> [] -> always (np_choice a) (fun x => In x a).
Proof.
  intros Hne. destruct a as [|a0 a']; [congruence|].
  unfold np_choice.
  eapply always_bind; [apply always_np_raw|]. intros r _.
  apply always_getitem. apply Z.mod_pos_bound. cbn [List.length]; lia.
Qed.

Lemma always_random_randint (a b : Z) :
  a <= b -> always (random_randint a b) (fun v => a <= v <= b).
Proof.
  intros Hab. unfold random_randint.
  destruct (b <? a) eqn:E; [apply Z.ltb_lt in E; lia|].
  eapply always_bind; [apply always_py_raw|]. intros r _.
  apply always_ret. pose proof (Z.mod_pos_bound r (b - a + 1)). lia.
Qed.

Lemma always_np_randint (low high : Z) :
  low < high -> always (np_randint low high) (fun v => low <= v < high).
Proof.
  intros Hlh. unfold np_randint.
  destruct (high <=? low) eqn:E; [apply Z.leb_le in E; lia|].
  eapply always_bind; [apply always_np_raw|]. intros r _.
  apply always_ret. pose proof (Z.mod_pos_bound r (high - low)). lia.
Qed.

Lemma bisect_bound (cum : list Z) (x : Z) (hi : nat) :
  0 <= bisect cum x hi <= Z.of_nat hi.
Proof.
  unfold bisect. pose proof (filter_length_le (fun c => c <=? x) (firstn hi cum)).
  pose proof (length_firstn_le hi cum). lia.
Qed.

Lemma always_random_choices {A} (population : list A) (weights : list Z) :
  List.length weights = List.length population ->
  0 < total weights ->
  always (random_choices population weights) (fun a => In a population).
Proof.
  intros Hlen Htot. unfold random_choices.
  rewrite Hlen, Nat.eqb_refl; simpl negb; cbv iota.
  destruct (total weights <=? 0) eqn:E; [apply Z.leb_le in E; lia|].
  eapply always_bind; [apply always_py_raw|]. intros r _.
  apply always_getitem.
  pose proof (bisect_bound (accumulate 0 weights) (r mod total weights)
                (List.length population - 1)).
  assert (List.length population <> 0)%nat.
  { intros E0. rewrite E0 in Hlen. destruct weights; [|discriminate].
    simpl in Htot; lia. }
  lia.
Qed.

Lemma accumulate_length (acc : Z) (ws : list Z) :
  List.length (accumulate acc ws) = List.length ws.
Proof. revert acc; induction ws; simpl; auto. Qed.

Lemma accumulate_last (acc : Z) (ws : list Z) :
  ws <> [] -> In (acc + total ws) (accumulate acc ws).
Proof.
  revert acc; induction ws as [|w ws IH]; intros acc Hne; [congruence|].
  simpl. destruct ws as [|w' ws'].
  - left; simpl; lia.
  - right. replace (acc + (w + total (w' :: ws')))
      with ((acc + w) + total (w' :: ws')) by lia.
    apply IH; discriminate.
Qed.

Lemma filter_length_lt {A} (f : A -> bool) (l : list A) (x : A) :
  In x l -> f x = false -> (List.length (filter f l) < List.length l)%nat.
Proof.
  induction l as [|a l IH]; simpl; [tauto|]. intros [->|Hx] Hf.
  - rewrite Hf. pose proof (filter_length_le f l). lia.
  - specialize (IH Hx Hf). destruct (f a); simpl; lia.
Qed.

Lemma always_np_choice_p {A} (a : list A) (p : list Z) :
  List.length p = List.length a -> total p = 100 ->
  always (np_choice_p a p) (fun x => In x a).
Proof.
  intros Hlen Htot. unfold np_choice_p.
  rewrite Hlen, Nat.eqb_refl, Htot; simpl negb; cbv iota.
  eapply always_bind; [apply always_np_raw|]. intros r _.
  apply always_getitem.
  pose proof (bisect_bound (accumulate 0 p) (r mod 100) (List.length a)).
  assert (Hne : p <> []) by (intros ->; simpl in Htot; lia).
  pose proof (accumulate_last 0 p Hne) as Hin.
  unfold bisect in *. rewrite <- Hlen, <- (accumulate_length 0 p), firstn_all in *.
  pose proof (filter_length_lt (fun c => c <=? r mod 100) _ _ Hin) as Hlt.
  rewrite Htot in Hlt.
  pose proof (Z.mod_pos_bound r 100).
  assert ((0 + 100 <=? r mod 100) = false) by (apply Z.leb_gt; lia).
  specialize (Hlt ltac:(assumption)). lia.
Qed.

Lemma always_if {A} (b : bool) (m1 m2 : Gen G A) (P : A -> Prop) :
  always m1 P -> always m2 P -> always (if b then m1 else m2) P.
Proof. now destruct b. Qed.

Lemma always_for_each {A B} (body : A -> Gen G B) (xs : list A)
  (P : A -> B -> Prop) :
  (forall x, In x xs -> always (body x) (P x)) ->
  always (for_each body xs) (fun rs => Forall2 P xs rs).
Proof.
  induction xs as [|x xs IH]; intros Hbody; simpl.
  - apply always_ret; constructor.
  - eapply always_bind; [apply Hbody; now left|]. intros r Hr.
    eapply always_bind; [apply IH; intros; apply Hbody; now right|].
    intros rs Hrs. apply always_ret. now constructor.
Qed.

Lemma dict_get_key {V} (d : list (string * V)) (k : string) :
  In k (map fst d) -> exists v, dict_get d k = Ok v.
Proof.
  induction d as [|[k' v] d IH]; simpl; [tauto|].
  intros [->|Hk].
  - rewrite String.eqb_refl; eauto.
  - destruct (k' =? k)%string; eauto.
Qed.

Lemma always_dict_get {V} (d : list (string * V)) (k : string) :
  In k (map fst d) -> always (lift (dict_get d k)) (fun _ => True).
Proof.
  intros Hk. destruct (dict_get_key d k Hk) as (v & E).
  now apply (always_lift _ v).
Qed.
End DrawFacts.

(** ** A generator to run the code on: every raw draw is the same number *)

#[export] Instance constant : Py.PRNG Z := fun c => (c, c).

(* ================================================================== *)
(** * Dates and case identifiers *)
(* ================================================================== *)

Module FormatFacts.
Import Py.

Lemma date_of_plus_days (t : datetime) (k : Z) :
  date_of (t + timedelta k) = date_of t + k.
Proof. unfold date_of, timedelta. now rewrite Z.div_add. Qed.


Lemma date_of_to_datetime (d : date) : date_of (to_datetime d) = d.
Proof. unfold date_of, to_datetime. now rewrite Z.div_mul. Qed.

Lemma delta_days_offset (end_date : datetime) (k : Z) :
  delta_days end_date (end_date - timedelta 365 + timedelta k) = 365 - k.
Proof.
  unfold delta_days, timedelta.
  replace (end_date - (end_date - 365 * usec_per_day + k * usec_per_day))
    with ((365 - k) * usec_per_day) by lia.
  now rewrite Z.div_mul.
Qed.

(** The number a string of decimal digits denotes. *)
Definition parse_digits (s : string) : option Z :=
  option_map (fun d => Z.of_N (N.of_uint d)) (NilEmpty.uint_of_string s).

(** [s] without its first [n] characters. *)
Fixpoint drop (n : nat) (s : string) : string :=
  match n, s with
  | O, _ => s
  | S n', String _ s' => drop n' s'
  | S _, EmptyString => EmptyString
  end.

(** The number at the end of a case identifier, after ["WHW-2024-"]. *)
Definition generation_index (id : string) : option Z :=
  parse_digits (drop 9 id).

Lemma parse_digits_zeros (k : nat) (s : string) :
  parse_digits (zeros k ++ s) = parse_digits s.
Proof.
  unfold parse_digits. induction k as [|k IH]; simpl; auto.
  destruct (NilEmpty.uint_of_string (zeros k ++ s)) as [d|] eqn:E;
    destruct (NilEmpty.uint_of_string s) as [d'|] eqn:E';
    simpl in *; congruence.
Qed.

Lemma to_uint_nonnil (n : N) : N.to_uint n <> Decimal.Nil.
Proof.
  destruct n; simpl; [discriminate | apply DecimalPos.Unsigned.to_uint_nonnil].
Qed.

Lemma parse_digits_digits (z : Z) : 0 <= z -> parse_digits (digits z) = Some z.
Proof.
  intros Hz. unfold parse_digits, digits.
  assert (E : NilZero.string_of_uint (N.to_uint (Z.to_N z))
              = NilEmpty.string_of_uint (N.to_uint (Z.to_N z))).
  { pose proof (to_uint_nonnil (Z.to_N z)) as Hnn.
    destruct (N.to_uint (Z.to_N z)); auto; congruence. }
  rewrite E, NilEmpty.usu; simpl.
  rewrite DecimalN.Unsigned.of_to. f_equal. lia.
Qed.

(** Reading back a formatted index gives the index. *)
Lemma parse_fmt_04d (z : Z) : 0 <= z -> parse_digits (fmt_04d z) = Some z.
Proof.
  intros Hz. unfold fmt_04d, zfill.
  destruct (z <? 0) eqn:E; [apply Z.ltb_lt in E; lia|].
  rewrite parse_digits_zeros. now apply parse_digits_digits.
Qed.

Lemma generation_index_id (z : Z) :
  0 <= z -> generation_index ("WHW-2024-" ++ fmt_04d z) = Some z.
Proof. intros Hz. unfold generation_index; simpl drop. now apply parse_fmt_04d. Qed.

Lemma range_nonneg (n i : Z) : In i (range n) -> 0 <= i < n.
Proof.
  unfold range. rewrite in_map_iff. intros (k & <- & Hk).
  apply in_seq in Hk. lia.
Qed.

Lemma range_NoDup (n : Z) : NoDup (range n).
Proof.
  unfold range. apply Finite.Injective_map_NoDup; [|apply seq_NoDup].
  intros x y. apply Nat2Z.inj.
Qed.

Lemma range_length (n : Z) : 0 <= n -> Z.of_nat (List.length (range n)) = n.
Proof. intros Hn. unfold range. rewrite length_map, length_seq. lia. Qed.

Lemma range_nonpositive (n : Z) : n <= 0 -> range n = [].
Proof. intros Hn. unfold range. now replace (Z.to_nat n) with 0%nat by lia. Qed.

(** Distinct indices get distinct identifiers. *)
Lemma case_ids_NoDup (n : Z) :
  NoDup (map (fun i => "WHW-2024-" ++ fmt_04d (i + 1))%string (range n)).
Proof.
  apply Finite.Injective_map_NoDup_in; [|apply range_NoDup].
  intros x y Hx Hy E.
  apply range_nonneg in Hx, Hy.
  apply (f_equal generation_index) in E.
  rewrite !generation_index_id in E by lia.
  injection E; lia.
Qed.

End FormatFacts.

(* ================================================================== *)
(** * The record generator of data/generate_data.py *)
(* ================================================================== *)

Module GenerateFacts.
Import Py Pandas GenerateData FormatFacts.
Local Open Scope string_scope.

(** The range of [n_affected] for each severity. *)
Definition n_affected_range (severity : string) : Z * Z :=
  if severity =? "Critical" then (5, 20)
  else if severity =? "High" then (3, 10)
  else if severity =? "Moderate" then (1, 5)
  else (1, 3).

(** What every pass of the loop body yields for index [i]; [report_date] is
    still the day number. *)
Record well_generated (start_date : datetime) (i : Z) (r : CaseRecord)
  : Prop := mk_well_generated
  { wg_case_id : case_id r = "WHW-2024-" ++ fmt_04d (i + 1);
    wg_date : (date_of start_date <= report_date r
               <= date_of start_date + 365)%Z;
    wg_region : In (region r) (map fst REGIONS);
    wg_species : In (species r) SPECIES;
    wg_syndrome : In (syndrome r) SYNDROMES;
    wg_severity : In (severity r) SEVERITY;
    wg_status : In (status r) STATUS;
    wg_animals : (fst (n_affected_range (severity r)) <= animals_affected r
                  <= snd (n_affected_range (severity r)))%Z }.

(** The record as stored in the frame: the date string parsed to midnight. *)
Definition stamped (r : CaseRecord) : CaseRecord :=
  with_report_date r (to_datetime (report_date r)).

Section GenerateProofs.
Context {G : Type} `{PRNG G} `{SortKind}.

Lemma syndrome_weights_ok (m : Z) :
  List.length (syndrome_weights m) = List.length SYNDROMES
  /\ (0 < total (syndrome_weights m))%Z.
Proof.
  unfold syndrome_weights.
  destruct (month_in m [6; 7; 8]%Z); [split; reflexivity|].
  destruct (month_in m [3; 4; 5; 11]%Z); split; reflexivity.
Qed.

Lemma always_draw_n_affected (severity : string) :
  always (draw_n_affected severity)
         (fun n => (fst (n_affected_range severity) <= n
                    <= snd (n_affected_range severity))%Z).
Proof.
  unfold draw_n_affected, n_affected_range.
  destruct (severity =? "Critical");
    [cbn [fst snd]; apply always_random_randint; lia|].
  destruct (severity =? "High");
    [cbn [fst snd]; apply always_random_randint; lia|].
  destruct (severity =? "Moderate");
    cbn [fst snd]; apply always_random_randint; lia.
Qed.

Lemma always_record_of (start_date end_date : datetime) (i : Z) :
  always (record_of start_date end_date i) (well_generated start_date i).
Proof.
  unfold record_of.
  eapply always_bind; [apply always_random_choice; discriminate|].
  intros region Hregion.
  eapply always_bind; [apply always_dict_get, Hregion|].
  intros [lat lon] _.
  eapply always_bind; [apply always_np_raw|]. intros dlat _.
  eapply always_bind; [apply always_np_raw|]. intros dlon _.
  eapply always_bind; [apply (always_random_randint 0 365); lia|].
  intros days_offset Hoffset.
  eapply always_bind;
    [apply always_random_choices; [reflexivity | reflexivity]|].
  intros species Hspecies.
  eapply always_bind;
    [apply always_random_choices; apply syndrome_weights_ok|].
  intros syndrome Hsyndrome.
  eapply always_bind;
    [apply always_random_choices; [reflexivity | reflexivity]|].
  intros severity Hseverity.
  eapply always_bind with (P := fun st => In st STATUS).
  { apply always_if; [|apply always_if];
      apply always_random_choices; reflexivity. }
  intros status Hstatus.
  eapply always_bind; [apply always_draw_n_affected|].
  intros n_affected Hn.
  apply always_ret. constructor; simpl; auto.
  cbv beta in Hoffset. rewrite date_of_plus_days. lia.
Qed.

Lemma Forall2_In_r {A B} (P : A -> B -> Prop) (xs : list A) (ys : list B)
  (y : B) :
  Forall2 P xs ys -> In y ys -> exists x, In x xs /\ P x y.
Proof.
  induction 1 as [|x y' xs ys HP HF IH]; simpl; [tauto|].
  intros [->|Hy]; [exists x; auto|].
  destruct (IH Hy) as (x' & Hx' & HP'); exists x'; auto.
Qed.

Lemma Forall2_map_eq {A B C} (f : A -> C) (g : B -> C) (xs : list A)
  (ys : list B) :
  Forall2 (fun x y => g y = f x) xs ys -> map g ys = map f xs.
Proof. induction 1; simpl; congruence. Qed.

Lemma setitem_stamped (data : list CaseRecord) :
  map (fun rv => with_report_date (fst rv) (snd rv))
      (combine data (map to_datetime (map report_date data)))
  = map stamped data.
Proof. induction data as [|r data IH]; simpl; [reflexivity | now rewrite IH]. Qed.

(** With a positive count the generator returns: it yields the stamped
    records of the loop, sorted by date. *)
Lemma generate_returns (now : datetime) (n : Z) (s : rngs G) :
  (0 < n)%Z ->
  exists data s',
    Forall2 (well_generated (now - timedelta 365)) (range n) data
    /\ generate_surveillance_data now n s
       = Ok (sort_values report_date true (map stamped data), s').
Proof.
  intros Hn.
  destruct (always_for_each (record_of (now - timedelta 365) now) (range n)
              (well_generated (now - timedelta 365))
              (fun i _ => always_record_of _ _ i) s)
    as (data & s' & E & HF).
  exists data, s'. split; [exact HF|].
  unfold generate_surveillance_data, bind. rewrite E.
  destruct data as [|r data].
  - apply Forall2_length in HF.
    pose proof (range_length n ltac:(lia)) as Hlen.
    rewrite HF in Hlen. simpl in Hlen. lia.
  - unfold from_records, column, lift, setitem, sort_values_of.
    cbn [columns rows]. change (existsb (String.eqb "report_date") record_keys)
      with true. cbv iota.
    now rewrite setitem_stamped.
Qed.


(** C4: asked for a non-positive number of records, the generator raises: no
    record is drawn, the frame built from the empty list has no column, and
    naming ["report_date"] raises [KeyError].  Nothing is returned. *)
Theorem C4_non_positive_count_raises (now : datetime) (n : Z) (s : rngs G) :
  (n <= 0)%Z ->
  generate_surveillance_data now n s = Raise (KeyError "report_date").
Proof.
  intros Hn. unfold generate_surveillance_data.
  now rewrite (range_nonpositive n Hn).
Qed.


(** Every record the generator marks Critical has its animal count drawn
    from 5 to 20. *)
Lemma generate_critical_range (now : datetime) (n : Z) (s : rngs G) :
  (0 < n)%Z ->
  exists df s',
    generate_surveillance_data now n s = Ok (df, s')
    /\ forall r, In r df -> severity r = "Critical" ->
                 (5 <= animals_affected r <= 20)%Z.
Proof.
  intros Hn. destruct (generate_returns now n s Hn) as (data & s' & HF & E).
  exists (sort_values report_date true (map stamped data)), s'.
  split; [exact E|]. intros r Hr Hsev.
  apply (Permutation_in _ (Permutation_sym
           (sort_values_perm report_date true (map stamped data)))) in Hr.
  apply in_map_iff in Hr as (r0 & <- & Hr0).
  destruct (Forall2_In_r _ _ _ _ HF Hr0) as (i & _ & Hw).
  pose proof (wg_animals _ _ _ Hw) as Ha.
  cbn [stamped with_report_date severity animals_affected] in *.
  rewrite Hsev in Ha. exact Ha.
Qed.
End GenerateProofs.

Lemma C4_non_positive_count_witness :
  (0 <= 0)%Z
  /\ generate_surveillance_data (H:=constant) (H0:=stable_kind)
       (to_datetime 19800) 0 (mk_rngs 7 7)
     = Raise (KeyError "report_date").
Proof.
  split; [lia|].
  apply (C4_non_positive_count_raises (H:=constant)
           (H0:=stable_kind) (to_datetime 19800) 0 (mk_rngs 7 7)).
  lia.
Defined.


End GenerateFacts.

(* ================================================================== *)
(** * The inline generator of app.py *)
(* ================================================================== *)

Module LoadFacts.
Import Py Pandas App FormatFacts.
Local Open Scope string_scope.

(** What every pass of the loop body yields for index [i]. *)
Record well_loaded (start_date : datetime) (i : Z) (r : CaseRecord)
  : Prop := mk_well_loaded
  { wl_case_id : case_id r = "WHW-2024-" ++ fmt_04d (i + 1);
    wl_date : (date_of start_date <= date_of (report_date r)
               < date_of start_date + 365)%Z;
    wl_severity : In (severity r) severity_levels;
    wl_status : In (status r) status_options;
    wl_animals : (1 <= animals_affected r <= 9)%Z }.

Section LoadProofs.
Context {G : Type} `{PRNG G} `{SortKind} `{Seeding G}.

Lemma always_loaded_record (start_date end_date : datetime) (i : Z) :
  always (record_of start_date end_date i) (well_loaded start_date i).
Proof.
  unfold record_of.
  eapply always_bind; [apply always_np_choice; discriminate|].
  intros region Hregion.
  eapply always_bind; [apply always_dict_get, Hregion|].
  intros [lat lon] _.
  eapply always_bind; [apply always_np_raw|]. intros dlat _.
  eapply always_bind; [apply always_np_raw|]. intros dlon _.
  eapply always_bind; [apply (always_np_randint 0 365); lia|].
  intros days_offset Hoffset.
  eapply always_bind; [apply always_np_choice_p; reflexivity|].
  intros species Hspecies.
  eapply always_bind; [apply always_np_choice; discriminate|].
  intros syndrome Hsyndrome.
  eapply always_bind; [apply always_np_choice_p; reflexivity|].
  intros severity Hseverity.
  eapply always_bind with (P := fun st => In st status_options).
  { apply always_if; [|apply always_if];
      apply always_np_choice_p; reflexivity. }
  intros status Hstatus.
  eapply always_bind; [apply (always_np_randint 1 10); lia|].
  intros n_affected Hn.
  apply always_ret. cbv beta in Hoffset, Hn. constructor; simpl; auto.
  - rewrite date_of_plus_days. lia.
  - lia.
Qed.

(** The state in which the loop of [load_data] starts. *)
Definition reseeded (s : rngs G) : rngs G :=
  mk_rngs (py_random s) (seeded_with 42).

(** The frame of a non-empty [data] has its columns, so the sort returns. *)
Lemma load_data_sorts (now : datetime) (s s' : rngs G)
  (r : CaseRecord) (data : list CaseRecord) :
  for_each (record_of (now - timedelta 365) now) (range n_records)
           (reseeded s)
  = Ok (r :: data, s') ->
  load_data now s = Ok (sort_values report_date true (r :: data), s').
Proof.
  intros E. unfold load_data, bind, np_random_seed. fold (reseeded s).
  now rewrite E.
Qed.

Lemma load_data_returns (now : datetime) (s : rngs G) :
  exists data s',
    Forall2 (well_loaded (now - timedelta 365)) (range n_records) data
    /\ load_data now s = Ok (sort_values report_date true data, s').
Proof.
  destruct (always_for_each (record_of (now - timedelta 365) now)
              (range n_records) (well_loaded (now - timedelta 365))
              (fun i _ => always_loaded_record _ _ i) (reseeded s))
    as (data & s' & E & HF).
  exists data, s'. split; [exact HF|].
  destruct data as [|r data]; [|now apply load_data_sorts].
  apply Forall2_length in HF. discriminate HF.
Qed.

(** The case store comes out of [load_data] in ascending date order. *)
Lemma load_data_ascending (now : datetime) (s : rngs G) :
  exists df s',
    load_data now s = Ok (df, s') /\ FilterFacts.ascending df.
Proof.
  destruct (load_data_returns now s) as (data & s' & _ & E).
  exists (sort_values report_date true data), s'.
  split; [exact E | apply sort_values_ascending].
Qed.

(** Whatever the generator and the state [np.random.seed] puts it in,
    [load_data] returns 500 records, each with an animal count from 1 to 9. *)
Lemma load_data_counts (now : datetime) (s : rngs G) :
  exists df s',
    load_data now s = Ok (df, s')
    /\ List.length df = 500%nat
    /\ forall r, In r df -> (1 <= animals_affected r <= 9)%Z.
Proof.
  destruct (load_data_returns now s) as (data & s' & HF & E).
  exists (sort_values report_date true data), s'.
  pose proof (sort_values_perm report_date true data) as Hperm.
  split; [exact E|]. split.
  - rewrite <- (Permutation_length Hperm), <- (Forall2_length HF).
    reflexivity.
  - intros r Hr. apply (Permutation_in _ (Permutation_sym Hperm)) in Hr.
    destruct (GenerateFacts.Forall2_In_r _ _ _ _ HF Hr) as (i & _ & Hw).
    apply (wl_animals _ _ _ Hw).
Qed.
End LoadProofs.

Lemma bind_runs {G A B} (m : Gen G A) (f : A -> Gen G B) (s s1 : rngs G)
  (a : A) :
  m s = Ok (a, s1) -> bind m f s = f a s1.
Proof. intros E. unfold bind. now rewrite E. Qed.

End LoadFacts.

(* ================================================================== *)
(** * More on the filters and the key metrics *)
(* ================================================================== *)

Module FilterMore.
Import Py Pandas App FilterFacts.
Local Open Scope string_scope.

Lemma filter_none {A} (f : A -> bool) (l : list A) :
  (forall x, In x l -> f x = false) -> filter f l = [].
Proof.
  induction l as [|a l IH]; simpl; intros Hf; [reflexivity|].
  rewrite (Hf a) by now left. apply IH; intros; apply Hf; now right.
Qed.

Lemma filter_all {A} (f : A -> bool) (l : list A) :
  (forall x, In x l -> f x = true) -> filter f l = l.
Proof.
  induction l as [|a l IH]; simpl; intros Hf; [reflexivity|].
  rewrite (Hf a) by now left. f_equal. apply IH; intros; apply Hf; now right.
Qed.

Lemma len_filter_le {A} (f : A -> bool) (l : list A) :
  (0 <= len (filter f l) <= len l)%Z.
Proof. unfold len. pose proof (filter_length_le f l). lia. Qed.

(** A date range picked the wrong way round matches no record: the result
    is empty, whatever the other widgets say. *)
Theorem reversed_date_range_gives_nothing (w : Widgets) (d0 d1 : date)
  (df : list CaseRecord) :
  date_range w = [d0; d1] -> (d1 < d0)%Z -> apply_filters w df = [].
Proof.
  intros Hrange Hlt. rewrite apply_filters_filter.
  apply filter_none; intros r _.
  unfold satisfies, date_clause. rewrite Hrange.
  destruct (d0 <=? date_of (report_date r))%Z eqn:E0;
    destruct (date_of (report_date r) <=? d1)%Z eqn:E1; try reflexivity.
  apply Z.leb_le in E0, E1. lia.
Qed.

Lemma reversed_date_range_witness :
  apply_filters (mk_widgets [19801; 19799]%Z "All" "All" [] [])
                [lion_case; zebra_case] = [].
Proof.
  apply (reversed_date_range_gives_nothing
           (mk_widgets [19801; 19799]%Z "All" "All" [] []) 19801 19799);
    [reflexivity | lia].
Defined.

(** Filtering with one sidebar state and then with another gives the same
    frame as filtering in the other order, and the same as one pass that
    asks for both. *)
Theorem filters_commute (w1 w2 : Widgets) (df : list CaseRecord) :
  apply_filters w1 (apply_filters w2 df)
  = apply_filters w2 (apply_filters w1 df)
  /\ apply_filters w1 (apply_filters w2 df)
     = filter (fun r => satisfies w1 r && satisfies w2 r) df.
Proof.
  rewrite !apply_filters_filter, !filter_filter. split.
  - apply filter_ext; intros r. apply andb_comm.
  - apply filter_ext; intros r. apply andb_comm.
Qed.

Lemma isin_singleton (x v : string) : isin x [v] = (x =? v).
Proof. unfold isin; simpl. now rewrite orb_false_r. Qed.

(** With only "Active" selected under Status, the Active Cases metric equals
    Total Cases; with only "Critical" selected under Severity, Critical
    Alerts equals Total Cases. *)
Theorem single_selection_fills_its_metric (now : datetime) (w : Widgets)
  (store : list CaseRecord) :
  let m := key_metrics now (apply_filters w store) in
  (selected_status w = ["Active"] -> active_cases m = total_cases m)
  /\ (selected_severity w = ["Critical"] -> critical_cases m = total_cases m).
Proof.
  cbn zeta. unfold key_metrics; cbn [active_cases critical_cases total_cases].
  split; intros Hsel; f_equal; apply filter_all; intros r Hr;
    rewrite apply_filters_filter in Hr; apply filter_In in Hr as [_ Hs];
    unfold satisfies in Hs; rewrite !andb_true_iff in Hs;
    destruct Hs as [[[[_ _] _] Hsev] Hst].
  - unfold status_clause in Hst. rewrite Hsel in Hst.
    now rewrite isin_singleton in Hst.
  - unfold severity_clause in Hsev. rewrite Hsel in Hsev.
    now rewrite isin_singleton in Hsev.
Qed.

Lemma single_selection_witness :
  active_cases (key_metrics (to_datetime 19810)
                  (apply_filters (mk_widgets [] "All" "All" [] ["Active"])
                                 [lion_case; zebra_case]))
  = total_cases (key_metrics (to_datetime 19810)
                   (apply_filters (mk_widgets [] "All" "All" [] ["Active"])
                                  [lion_case; zebra_case])).
Proof.
  apply (single_selection_fills_its_metric (to_datetime 19810)
           (mk_widgets [] "All" "All" [] ["Active"]) [lion_case; zebra_case]).
  reflexivity.
Defined.

Lemma unique_length_le {K} (eqb : K -> K -> bool) (col : list K) :
  (List.length (unique eqb col) <= List.length col)%nat.
Proof.
  induction col as [|k col IH]; simpl; [lia|].
  pose proof (filter_length_le (fun k' => negb (eqb k k')) (unique eqb col)).
  lia.
Qed.

Lemma sum_between (lo hi : Z) (col : list Z) :
  (forall x, In x col -> lo <= x <= hi)%Z ->
  (lo * len col <= sum col <= hi * len col)%Z.
Proof.
  unfold len. induction col as [|x col IH]; intros Hb.
  - simpl; lia.
  - cbn [sum fold_right List.length].
    specialize (IH (fun y Hy => Hb y (or_intror Hy))).
    specialize (Hb x (or_introl eq_refl)).
    unfold sum in IH. nia.
Qed.

(** No metric exceeds Total Cases: the cases of the month, the active and
    the critical ones and the regions monitored all lie between 0 and it.
    When every record has between [lo] and [hi] animals affected, Animals
    Affected lies between [lo] and [hi] times Total Cases. *)
Theorem metrics_within_total (now : datetime) (filtered : list CaseRecord)
  (lo hi : Z) :
  let m := key_metrics now filtered in
  (0 <= this_month m <= total_cases m)%Z
  /\ (0 <= active_cases m <= total_cases m)%Z
  /\ (0 <= critical_cases m <= total_cases m)%Z
  /\ (0 <= regions_affected m <= total_cases m)%Z
  /\ ((forall r, In r filtered -> lo <= animals_affected r <= hi)%Z ->
      (lo * total_cases m <= total_animals m <= hi * total_cases m)%Z).
Proof.
  cbn zeta. unfold key_metrics;
    cbn [this_month active_cases critical_cases regions_affected
         total_animals total_cases].
  repeat apply conj; try apply len_filter_le.
  - unfold nunique; lia.
  - unfold nunique, len.
    pose proof (unique_length_le String.eqb (map region filtered)) as Hu.
    rewrite length_map in Hu. lia.
  - intros Hb.
    replace (len filtered) with (len (map animals_affected filtered))
      by (unfold len; now rewrite length_map).
    apply sum_between. intros x Hx.
    apply in_map_iff in Hx as (r & <- & Hr). auto.
Qed.

Lemma metrics_within_total_witness :
  (2 * total_cases (key_metrics (to_datetime 19810) [lion_case; zebra_case])
   <= total_animals (key_metrics (to_datetime 19810) [lion_case; zebra_case])
   <= 4 * total_cases (key_metrics (to_datetime 19810)
                         [lion_case; zebra_case]))%Z.
Proof.
  apply (metrics_within_total (to_datetime 19810) [lion_case; zebra_case] 2 4).
  intros r [<-|[<-|[]]]; simpl; lia.
Defined.

End FilterMore.

(* ================================================================== *)
(** * The sidebar of [main] as first drawn *)
(* ================================================================== *)

Module Sidebar.
Import Py Pandas App FilterFacts FilterMore.
Local Open Scope string_scope.

(** [df["report_date"].min()] and [.max()] of a frame with a first row. *)
Definition min_report_date (r : CaseRecord) (rest : list CaseRecord)
  : datetime :=
  fold_left Z.min (map report_date rest) (report_date r).

Definition max_report_date (r : CaseRecord) (rest : list CaseRecord)
  : datetime :=
  fold_left Z.max (map report_date rest) (report_date r).

(** The choices offered under Severity: [severity_options[1:]]. *)
Definition severity_choices : list string :=
  ["Critical"; "High"; "Moderate"; "Low"].

(** What the widgets return before the user touches them: the date input
    spans [min_date] to [max_date], the two select boxes stand on their first
    option ["All"], and the two multiselects have every option selected.  An
    empty frame has no earliest date; [load_data] never returns one. *)
Definition initial_widgets (df : list CaseRecord) : option Widgets :=
  match df with
  | [] => None
  | r :: rest =>
      let min_date := date_of (min_report_date r rest) in
      let max_date := date_of (max_report_date r rest) in
      let status_options := unique String.eqb (map status df) in
      Some (mk_widgets [min_date; max_date] "All" "All"
                       severity_choices status_options)
  end.

Lemma fold_min_le (l : list Z) (a : Z) :
  (fold_left Z.min l a <= a)%Z
  /\ forall x, In x l -> (fold_left Z.min l a <= x)%Z.
Proof.
  revert a; induction l as [|y l IH]; intros a; simpl; [split; [lia|tauto]|].
  destruct (IH (Z.min a y)) as [Ha Hl]. split; [lia|].
  intros x [<-|Hx]; [lia | auto].
Qed.

Lemma fold_max_ge (l : list Z) (a : Z) :
  (a <= fold_left Z.max l a)%Z
  /\ forall x, In x l -> (x <= fold_left Z.max l a)%Z.
Proof.
  revert a; induction l as [|y l IH]; intros a; simpl; [split; [lia|tauto]|].
  destruct (IH (Z.max a y)) as [Ha Hl]. split; [lia|].
  intros x [<-|Hx]; [lia | auto].
Qed.

Lemma isin_In (x : string) (values : list string) :
  In x values -> isin x values = true.
Proof.
  intros Hx. unfold isin. apply existsb_exists. exists x.
  split; [exact Hx | apply String.eqb_refl].
Qed.

(** As first drawn, the sidebar filters nothing out: on a store whose
    severities are among the four offered, the filtered frame is the whole
    store. *)
Theorem initial_widgets_keep_everything (store : list CaseRecord)
  (w : Widgets) :
  initial_widgets store = Some w ->
  (forall r, In r store -> In (severity r) severity_choices) ->
  apply_filters w store = store.
Proof.
  intros Hw Hsev. destruct store as [|r0 rest]; [discriminate|].
  injection Hw as <-. rewrite apply_filters_filter.
  apply filter_all; intros r Hr.
  unfold satisfies, date_clause, region_clause, species_clause,
    severity_clause, status_clause; cbn [date_range selected_region
    selected_species selected_severity selected_status severity_choices].
  rewrite !andb_true_iff. repeat split.
  - apply Z.leb_le, AggregationFacts.date_of_le.
    destruct (fold_min_le (map report_date rest) (report_date r0)) as [H0 Hl].
    destruct Hr as [<-|Hr]; [exact H0 | apply Hl, in_map, Hr].
  - apply Z.leb_le, AggregationFacts.date_of_le.
    destruct (fold_max_ge (map report_date rest) (report_date r0)) as [H0 Hl].
    destruct Hr as [<-|Hr]; [exact H0 | apply Hl, in_map, Hr].
  - apply isin_In, (Hsev r Hr).
  - apply isin_In.
    apply (In_unique String.eqb String.eqb_eq (status r)
             (map status (r0 :: rest))), in_map, Hr.
Qed.

(** The sidebar state [w] with another selection under Severity. *)
Definition with_severity (w : Widgets) (selection : list string) : Widgets :=
  mk_widgets (date_range w) (selected_region w) (selected_species w)
             selection (selected_status w).

(** On a store whose severities are among the four offered, selecting all
    four severities and selecting none give the same filtered frame. *)
Theorem all_or_no_severity_selected (w : Widgets) (store : list CaseRecord) :
  (forall r, In r store -> In (severity r) severity_choices) ->
  apply_filters (with_severity w severity_choices) store
  = apply_filters (with_severity w []) store.
Proof.
  intros Hsev. rewrite !apply_filters_filter.
  induction store as [|r store IH]; [reflexivity|].
  cbn [filter]. rewrite IH by (intros; apply Hsev; now right).
  replace (satisfies (with_severity w severity_choices) r)
    with (satisfies (with_severity w []) r); [reflexivity|].
  unfold satisfies, date_clause, region_clause, species_clause,
    severity_clause, status_clause, with_severity;
    cbn [date_range selected_region selected_species selected_severity
         selected_status severity_choices].
  now rewrite (isin_In _ _ (Hsev r (or_introl eq_refl))).
Qed.

Lemma all_or_no_severity_witness :
  apply_filters (with_severity no_filter severity_choices)
                [lion_case; zebra_case]
  = apply_filters (with_severity no_filter []) [lion_case; zebra_case].
Proof.
  apply (all_or_no_severity_selected no_filter [lion_case; zebra_case]).
  intros r [<-|[<-|[]]]; simpl; tauto.
Defined.

Lemma initial_widgets_witness :
  apply_filters
    (mk_widgets [19800; 19800]%Z "All" "All" severity_choices
                ["Active"; "Resolved"])
    [lion_case; zebra_case]
  = [lion_case; zebra_case].
Proof.
  apply (initial_widgets_keep_everything [lion_case; zebra_case]).
  - reflexivity.
  - intros r [<-|[<-|[]]]; simpl; tauto.
Defined.

End Sidebar.

(* ================================================================== *)
(** * More on the chart frames and the recent-cases table *)
(* ================================================================== *)

Section TallyMore.
Context {K : Type} (eqb : K -> K -> bool).
Hypothesis eqb_eq : forall a b, eqb a b = true <-> a = b.

Lemma sum_scaled {A} (v : Z) (g : A -> Z) (l : list A) :
  Pandas.sum (map (fun x => v * g x) l) = v * Pandas.sum (map g l).
Proof. induction l as [|a l IH]; simpl; [lia | rewrite IH; lia]. Qed.

Lemma sum_pointwise {A} (f g : A -> Z) (l : list A) :
  Pandas.sum (map (fun x => f x + g x) l)
  = Pandas.sum (map f l) + Pandas.sum (map g l).
Proof. induction l as [|a l IH]; simpl; [lia | rewrite IH; lia]. Qed.

(** Summing a column group by group gives the sum of the column. *)
Lemma sum_by_group {A} (key : A -> K) (f : A -> Z) (us : list K)
  (df : list A) :
  NoDup us -> (forall r, In r df -> In (key r) us) ->
  Pandas.sum (map (fun k => Pandas.sum
                              (map f (filter (fun r => eqb k (key r)) df)))
                  us)
  = Pandas.sum (map f df).
Proof.
  intros Hnd; induction df as [|r df IH]; intros Hcov.
  - simpl. clear; induction us; simpl; auto.
  - rewrite (map_ext _ (fun k => f r * (if eqb k (key r) then 1 else 0)
       + Pandas.sum (map f (filter (fun r' => eqb k (key r')) df)))).
    + rewrite sum_pointwise, sum_scaled, (sum_indicator eqb eqb_eq), IH;
        auto using in_eq, in_cons.
      simpl; lia.
    + intros k. cbn [filter]. destruct (eqb k (key r)); simpl; lia.
Qed.

Lemma count_of_positive (k : K) (col : list K) :
  In k col -> 1 <= Pandas.count_of eqb k col.
Proof.
  intros Hk. unfold Pandas.count_of.
  assert (Hin : In k (filter (eqb k) col))
    by (apply filter_In; split; [exact Hk | now apply eqb_eq]).
  destruct (filter (eqb k) col); [destruct Hin | cbn [List.length]; lia].
Qed.

Lemma count_of_map {A} (key : A -> K) (k : K) (df : list A) :
  Pandas.count_of eqb k (map key df)
  = App.len (filter (fun r => eqb k (key r)) df).
Proof.
  unfold Pandas.count_of, App.len. f_equal.
  induction df as [|r df IH]; simpl; auto.
  destruct (eqb k (key r)); simpl; now rewrite IH.
Qed.

(** What [value_counts] lists: each value present once, with the number of
    its occurrences, the largest count first. *)
Lemma value_counts_rows `{Pandas.SortKind} (col : list K) :
  StronglySorted (fun a b => snd b <= snd a) (Pandas.value_counts eqb col)
  /\ NoDup (map fst (Pandas.value_counts eqb col))
  /\ forall k c, In (k, c) (Pandas.value_counts eqb col)
                 <-> In k col /\ c = Pandas.count_of eqb k col.
Proof.
  unfold Pandas.value_counts.
  set (rows := map (fun k => (k, Pandas.count_of eqb k col))
                   (Pandas.unique eqb col)).
  pose proof (sort_values_perm snd false rows) as Hperm.
  split; [apply sort_values_descending|]. split.
  - eapply Permutation_NoDup; [apply Permutation_map, Hperm|].
    unfold rows. rewrite map_map; simpl. rewrite map_id.
    now apply NoDup_unique.
  - intros k c. split.
    + intros Hin. apply (Permutation_in _ (Permutation_sym Hperm)) in Hin.
      apply in_map_iff in Hin as (k' & [= -> <-] & Hk).
      split; [now apply (proj1 (In_unique eqb eqb_eq _ _)) | reflexivity].
    + intros [Hk ->]. apply (Permutation_in _ Hperm).
      apply in_map_iff. exists k. split; [reflexivity|].
      now apply In_unique.
Qed.
End TallyMore.

Module AggregationMore.
Import Py Pandas App FilterFacts AggregationFacts.
Local Open Scope string_scope.

Definition week_of (r : CaseRecord) : date * date :=
  to_period_W (report_date r).

Lemma strictly_ascending_weeks (l : list (date * date)) :
  StronglySorted (fun a b => fst a <= fst b)%Z l ->
  NoDup l ->
  Forall (fun k => snd k = fst k + 6)%Z l ->
  StronglySorted (fun a b => fst a < fst b)%Z l.
Proof.
  induction 1 as [|a l HS IH Ha]; intros Hnd Hform; constructor.
  - apply IH; [now inversion Hnd | now inversion Hform].
  - rewrite Forall_forall in *. intros x Hx.
    specialize (Ha x Hx).
    assert (fst a <> fst x).
    { intros E. inversion Hnd as [|? ? Hnotin _]; subst. apply Hnotin.
      pose proof (Hform a (or_introl eq_refl)) as Fa.
      pose proof (Hform x (or_intror Hx)) as Fx.
      destruct a as [a1 a2], x as [x1 x2]; simpl in *.
      now replace (a1, a2) with (x1, x2) by (f_equal; lia). }
    lia.
Qed.

Lemma StronglySorted_of_map {A B} (R : B -> B -> Prop) (g : A -> B)
  (l : list A) :
  StronglySorted R (map g l) -> StronglySorted (fun x y => R (g x) (g y)) l.
Proof.
  induction l as [|a l IH]; simpl; intros HS; constructor;
    apply StronglySorted_inv in HS as [HS Ha]; auto.
  rewrite Forall_forall in *. intros x Hx. apply Ha. now apply in_map.
Qed.

Lemma timeline_weeks `{SortKind} (df : list CaseRecord) :
  map Week (create_timeline df)
  = sort_rows fst (unique week_eqb (map week_of df)).
Proof.
  unfold create_timeline, groupby. rewrite !map_map; simpl. apply map_id.
Qed.

(** The weekly animal counts add up to the Animals Affected metric. *)
Theorem weekly_animals_sum_to_total `{SortKind} (now : datetime)
  (filtered : list CaseRecord) :
  sum (map Animals_Affected (create_timeline filtered))
  = total_animals (key_metrics now filtered).
Proof.
  unfold create_timeline, groupby, key_metrics; cbn [total_animals].
  rewrite !map_map; cbn [Animals_Affected snd].
  apply (sum_by_group week_eqb week_eqb_eq week_of animals_affected).
  - eapply Permutation_NoDup;
      [apply sort_rows_perm | apply (NoDup_unique week_eqb week_eqb_eq)].
  - intros r Hr. eapply Permutation_in; [apply sort_rows_perm|].
    apply (In_unique week_eqb week_eqb_eq), (in_map week_of), Hr.
Qed.

(** The weekly series lists exactly the weeks that hold a record, each
    once, in chronological order, and every row counts at least one case:
    no empty week is made up. *)
Theorem weekly_series_lists_weeks_with_cases `{SortKind}
  (filtered : list CaseRecord) :
  StronglySorted (fun a b => fst (Week a) < fst (Week b))%Z
                 (create_timeline filtered)
  /\ Forall (fun row => 1 <= Cases row)%Z (create_timeline filtered)
  /\ forall wk, In wk (map Week (create_timeline filtered))
                <-> exists r, In r filtered /\ week_of r = wk.
Proof.
  pose proof (sort_rows_perm _ fst (unique week_eqb (map week_of filtered)))
    as Hperm.
  assert (Hweeks : forall wk,
             In wk (sort_rows fst (unique week_eqb (map week_of filtered)))
             <-> exists r, In r filtered /\ week_of r = wk).
  { intros wk. split.
    - intros Hin. apply (Permutation_in _ (Permutation_sym Hperm)) in Hin.
      apply (proj1 (In_unique week_eqb week_eqb_eq _ _)) in Hin.
      apply in_map_iff in Hin as (r & E & Hr). eauto.
    - intros (r & Hr & <-). apply (Permutation_in _ Hperm).
      apply (In_unique week_eqb week_eqb_eq), (in_map week_of), Hr. }
  split; [|split].
  - apply (StronglySorted_of_map (fun a b => fst a < fst b)%Z Week).
    rewrite timeline_weeks. apply strictly_ascending_weeks.
    + apply sort_rows_sorted.
    + eapply Permutation_NoDup;
        [exact Hperm | apply (NoDup_unique week_eqb week_eqb_eq)].
    + apply Forall_forall. intros wk Hwk.
      apply Hweeks in Hwk as (r & _ & <-).
      unfold week_of, to_period_W; simpl; lia.
  - unfold create_timeline, groupby. rewrite map_map.
    apply Forall_forall. intros row Hrow.
    apply in_map_iff in Hrow as (wk & <- & Hwk). cbn [Cases snd].
    apply Hweeks in Hwk as (r & Hr & <-).
    unfold len. rewrite length_map.
    assert (Hin : In r (filter (fun r' => week_eqb (week_of r)
                                  (to_period_W (report_date r'))) filtered))
      by (apply filter_In; split; [exact Hr | now apply week_eqb_eq]).
    destruct (filter _ filtered); [destruct Hin | cbn [List.length]; lia].
  - intros wk. rewrite timeline_weeks. apply Hweeks.
Qed.

(** The species tally and the syndrome tally list each value present in the
    filtered frame once, with the number of records that have it, largest
    count first; no value is listed with a count of zero. *)
Theorem tallies_list_values_present `{SortKind} (filtered : list CaseRecord) :
  (StronglySorted (fun a b => snd b <= snd a)%Z (create_species_chart filtered)
   /\ NoDup (map fst (create_species_chart filtered))
   /\ forall name c,
        In (name, c) (create_species_chart filtered)
        <-> (exists r, In r filtered /\ species r = name)
            /\ c = len (filter (fun r => name =? species r) filtered)
            /\ (1 <= c)%Z)
  /\ (StronglySorted (fun a b => snd b <= snd a)%Z
                     (create_syndrome_chart filtered)
      /\ NoDup (map fst (create_syndrome_chart filtered))
      /\ forall name c,
           In (name, c) (create_syndrome_chart filtered)
           <-> (exists r, In r filtered /\ syndrome r = name)
               /\ c = len (filter (fun r => name =? syndrome r) filtered)
               /\ (1 <= c)%Z).
Proof.
  assert (Hgen : forall field : CaseRecord -> string,
    StronglySorted (fun a b => snd b <= snd a)%Z
                   (value_counts String.eqb (map field filtered))
    /\ NoDup (map fst (value_counts String.eqb (map field filtered)))
    /\ forall name c,
         In (name, c) (value_counts String.eqb (map field filtered))
         <-> (exists r, In r filtered /\ field r = name)
             /\ c = len (filter (fun r => name =? field r) filtered)
             /\ (1 <= c)%Z).
  { intros field.
    destruct (value_counts_rows String.eqb String.eqb_eq (map field filtered))
      as (Hs & Hnd & Hrows).
    split; [exact Hs|]. split; [exact Hnd|].
    intros name c. rewrite Hrows, in_map_iff, (count_of_map String.eqb).
    split.
    - intros [(r & E & Hr) ->]. split; [eauto|]. split; [reflexivity|].
      rewrite <- (count_of_map String.eqb).
      apply (count_of_positive String.eqb String.eqb_eq).
      rewrite <- E. now apply in_map.
    - intros [(r & Hr & E) [-> _]]. split; [eauto | reflexivity]. }
  split; apply Hgen.
Qed.

(** The recent-cases table has 10 rows, or as many as the filtered frame
    has records when those are fewer; in the second case every record of the
    filtered frame is shown. *)
Theorem recent_table_shows_all_when_few `{SortKind}
  (filtered : list CaseRecord) :
  List.length (display_df filtered) = Nat.min 10 (List.length filtered)
  /\ ((List.length filtered <= 10)%nat ->
      Permutation filtered (recent_df filtered)).
Proof.
  pose proof (sort_values_perm report_date false filtered) as Hperm.
  unfold display_df, recent_df, head. split.
  - rewrite length_map, length_firstn, <- (Permutation_length Hperm).
    reflexivity.
  - intros Hle. rewrite firstn_all2; [exact Hperm|].
    now rewrite <- (Permutation_length Hperm).
Qed.

Lemma recent_table_witness :
  Permutation [lion_case; zebra_case]
              (recent_df (H:=stable_kind) [lion_case; zebra_case]).
Proof.
  apply (recent_table_shows_all_when_few (H:=stable_kind)
           [lion_case; zebra_case]).
  simpl; lia.
Defined.

End AggregationMore.

(* ================================================================== *)
(** * More on the record generator of data/generate_data.py *)
(* ================================================================== *)

Module GenerateMore.
Import Py Pandas GenerateData FormatFacts GenerateFacts.
Local Open Scope string_scope.

(** The two records agree on every field but the coordinates. *)
Definition same_but_coordinates (r1 r2 : CaseRecord) : Prop :=
  case_id r1 = case_id r2 /\ report_date r1 = report_date r2
  /\ region r1 = region r2 /\ species r1 = species r2
  /\ syndrome r1 = syndrome r2 /\ severity r1 = severity r2
  /\ status r1 = status r2 /\ animals_affected r1 = animals_affected r2.

Section GenerateMoreProofs.
Context {G : Type} `{PRNG G} `{SortKind}.

(** What the returned frame holds, record by record. *)
Lemma generated_records (now : datetime) (n : Z) (s : rngs G) :
  (0 < n)%Z ->
  exists df s',
    generate_surveillance_data now n s = Ok (df, s')
    /\ forall r, In r df ->
         exists r0 i, r = stamped r0
                      /\ well_generated (now - timedelta 365) i r0.
Proof.
  intros Hn. destruct (generate_returns now n s Hn) as (data & s' & HF & E).
  exists (sort_values report_date true (map stamped data)), s'.
  split; [exact E|]. intros r Hr.
  apply (Permutation_in _ (Permutation_sym
           (sort_values_perm report_date true (map stamped data)))) in Hr.
  apply in_map_iff in Hr as (r0 & <- & Hr0).
  destruct (Forall2_In_r _ _ _ _ HF Hr0) as (i & _ & Hw). eauto.
Qed.

(** For a positive count, every record of the returned frame has a severity
    of the table and an animal count in the range of that severity: 1 to 3
    for Low, 1 to 5 for Moderate, 3 to 10 for High, 5 to 20 for Critical. *)
Theorem generated_counts_follow_severity (now : datetime) (n : Z)
  (s : rngs G) :
  (0 < n)%Z ->
  exists df s',
    generate_surveillance_data now n s = Ok (df, s')
    /\ forall r, In r df ->
         (severity r = "Low" /\ 1 <= animals_affected r <= 3)%Z
         \/ (severity r = "Moderate" /\ 1 <= animals_affected r <= 5)%Z
         \/ (severity r = "High" /\ 3 <= animals_affected r <= 10)%Z
         \/ (severity r = "Critical" /\ 5 <= animals_affected r <= 20)%Z.
Proof.
  intros Hn. destruct (generated_records now n s Hn) as (df & s' & E & Hdf).
  exists df, s'. split; [exact E|]. intros r Hr.
  destruct (Hdf r Hr) as (r0 & i & -> & Hw).
  pose proof (wg_severity _ _ _ Hw) as Hsev.
  pose proof (wg_animals _ _ _ Hw) as Ha.
  cbn [stamped with_report_date severity animals_affected].
  simpl in Hsev. destruct Hsev as [E0|[E0|[E0|[E0|[]]]]];
    rewrite <- E0 in Ha |- *; simpl in Ha; auto 6.
Qed.

(** For a positive count, every record of the returned frame has its region,
    species, syndrome and status from the tables of the module, and its
    report date is a midnight: the time of day of the run is dropped. *)
Theorem generated_fields_from_tables (now : datetime) (n : Z) (s : rngs G) :
  (0 < n)%Z ->
  exists df s',
    generate_surveillance_data now n s = Ok (df, s')
    /\ forall r, In r df ->
         In (region r) (map fst REGIONS) /\ In (species r) SPECIES
         /\ In (syndrome r) SYNDROMES /\ In (status r) STATUS
         /\ report_date r = to_datetime (date_of (report_date r)).
Proof.
  intros Hn. destruct (generated_records now n s Hn) as (df & s' & E & Hdf).
  exists df, s'. split; [exact E|]. intros r Hr.
  destruct (Hdf r Hr) as (r0 & i & -> & Hw).
  cbn [stamped with_report_date region species syndrome status report_date].
  rewrite date_of_to_datetime.
  repeat split; [apply (wg_region _ _ _ Hw) | apply (wg_species _ _ _ Hw)
                | apply (wg_syndrome _ _ _ Hw) | apply (wg_status _ _ _ Hw)].
Qed.

(** ** The state of [numpy.random] reaches the coordinates only

    [coupled m1 m2 R]: run from two states that share the state of [random],
    [m1] and [m2] both raise, or both return, with results related by [R] and
    the state of [random] again shared. *)
Definition coupled {A} (m1 m2 : Gen G A) (R : A -> A -> Prop) : Prop :=
  forall p q1 q2,
    match m1 (mk_rngs p q1), m2 (mk_rngs p q2) with
    | Ok (a1, s1), Ok (a2, s2) => R a1 a2 /\ py_random s1 = py_random s2
    | Raise _, Raise _ => True
    | _, _ => False
    end.

Lemma coupled_ret {A} (a1 a2 : A) (R : A -> A -> Prop) :
  R a1 a2 -> coupled (ret a1) (ret a2) R.
Proof. intros HR p q1 q2; simpl; auto. Qed.

Lemma coupled_raise {A} (e1 e2 : exn) (R : A -> A -> Prop) :
  coupled (raise e1) (raise e2) R.
Proof. intros p q1 q2; exact I. Qed.

Lemma coupled_bind {A B} (m1 m2 : Gen G A) (f1 f2 : A -> Gen G B)
  (R : A -> A -> Prop) (Q : B -> B -> Prop) :
  coupled m1 m2 R ->
  (forall a1 a2, R a1 a2 -> coupled (f1 a1) (f2 a2) Q) ->
  coupled (bind m1 f1) (bind m2 f2) Q.
Proof.
  intros Hm Hf p q1 q2. specialize (Hm p q1 q2). unfold bind.
  destruct (m1 (mk_rngs p q1)) as [[a1 [p1 n1]]|e1],
           (m2 (mk_rngs p q2)) as [[a2 [p2 n2]]|e2]; try tauto.
  destruct Hm as [HR Hp]. simpl in Hp; subst p2.
  apply (Hf a1 a2 HR p1 n1 n2).
Qed.

Lemma coupled_lift {A} (r : result A) : coupled (lift r) (lift r) eq.
Proof. intros p q1 q2; unfold lift; destruct r; simpl; auto. Qed.

Lemma coupled_py_raw : coupled py_raw py_raw eq.
Proof.
  intros p q1 q2; unfold py_raw; simpl.
  destruct (next p) as [r g]; simpl; auto.
Qed.

Lemma coupled_np_raw : coupled np_raw np_raw (fun _ _ => True).
Proof.
  intros p q1 q2; unfold np_raw; simpl.
  destruct (next q1) as [r1 g1], (next q2) as [r2 g2]; simpl; auto.
Qed.

Lemma coupled_eq_bind {A B} (m : Gen G A) (f : A -> Gen G B) :
  coupled m m eq -> (forall a, coupled (f a) (f a) eq) ->
  coupled (bind m f) (bind m f) eq.
Proof.
  intros Hm Hf. apply (coupled_bind _ _ _ _ eq); [exact Hm|].
  intros a1 a2 <-. apply Hf.
Qed.

Lemma coupled_random_choice {A} (seq : list A) :
  coupled (random_choice seq) (random_choice seq) eq.
Proof.
  unfold random_choice. destruct seq; [apply coupled_raise|].
  apply coupled_eq_bind; [apply coupled_py_raw | intros; apply coupled_lift].
Qed.

Lemma coupled_random_randint (a b : Z) :
  coupled (random_randint a b) (random_randint a b) eq.
Proof.
  unfold random_randint. destruct (b <? a)%Z; [apply coupled_raise|].
  apply coupled_eq_bind;
    [apply coupled_py_raw | intros; now apply coupled_ret].
Qed.

Lemma coupled_random_choices {A} (population : list A) (weights : list Z) :
  coupled (random_choices population weights)
          (random_choices population weights) eq.
Proof.
  unfold random_choices.
  destruct (negb _); [apply coupled_raise|].
  destruct (total weights <=? 0)%Z; [apply coupled_raise|].
  apply coupled_eq_bind; [apply coupled_py_raw | intros; apply coupled_lift].
Qed.

Lemma coupled_draw_n_affected (severity : string) :
  coupled (draw_n_affected severity) (draw_n_affected severity) eq.
Proof.
  unfold draw_n_affected.
  destruct (severity =? "Critical"); [apply coupled_random_randint|].
  destruct (severity =? "High"); [apply coupled_random_randint|].
  destruct (severity =? "Moderate"); apply coupled_random_randint.
Qed.

Lemma coupled_record_of (start_date end_date : datetime) (i : Z) :
  coupled (record_of start_date end_date i) (record_of start_date end_date i)
          same_but_coordinates.
Proof.
  unfold record_of.
  eapply coupled_bind; [apply coupled_random_choice|]. intros region ? <-.
  eapply coupled_bind; [apply coupled_lift|]. intros [lat lon] ? <-.
  eapply coupled_bind; [apply coupled_np_raw|]. intros dlat1 dlat2 _.
  eapply coupled_bind; [apply coupled_np_raw|]. intros dlon1 dlon2 _.
  eapply coupled_bind; [apply coupled_random_randint|].
  intros days_offset ? <-.
  eapply coupled_bind; [apply coupled_random_choices|]. intros species ? <-.
  eapply coupled_bind; [apply coupled_random_choices|]. intros syndrome ? <-.
  eapply coupled_bind; [apply coupled_random_choices|]. intros severity ? <-.
  eapply coupled_bind with (R := eq).
  { destruct (_ <? 14)%Z; [apply coupled_random_choices|].
    destruct (_ <? 60)%Z; apply coupled_random_choices. }
  intros status ? <-.
  eapply coupled_bind; [apply coupled_draw_n_affected|].
  intros n_affected ? <-.
  apply coupled_ret. repeat split.
Qed.

Lemma coupled_for_each {A B} (body : A -> Gen G B) (xs : list A)
  (R : B -> B -> Prop) :
  (forall x, coupled (body x) (body x) R) ->
  coupled (for_each body xs) (for_each body xs) (Forall2 R).
Proof.
  intros Hbody. induction xs as [|x xs IH]; simpl.
  - apply coupled_ret. constructor.
  - eapply coupled_bind; [apply Hbody|]. intros r1 r2 Hr.
    eapply coupled_bind; [apply IH|]. intros rs1 rs2 Hrs.
    apply coupled_ret. now constructor.
Qed.

Lemma Forall2_In_l {A B} (P : A -> B -> Prop) (xs : list A) (ys : list B)
  (x : A) :
  Forall2 P xs ys -> In x xs -> exists y, In y ys /\ P x y.
Proof.
  induction 1 as [|x' y xs ys HP HF IH]; simpl; [tauto|].
  intros [->|Hx]; [exists y; auto|].
  destruct (IH Hx) as (y' & Hy' & HP'); exists y'; auto.
Qed.

(** Once the loop has returned a first record, the generator returns the
    stamped records, sorted. *)
Lemma generate_of_loop (now : datetime) (n : Z) (s s' : rngs G)
  (r : CaseRecord) (data : list CaseRecord) :
  for_each (record_of (now - timedelta 365) now) (range n) s
  = Ok (r :: data, s') ->
  generate_surveillance_data now n s
  = Ok (sort_values report_date true (map stamped (r :: data)), s').
Proof.
  intros E. unfold generate_surveillance_data, bind. rewrite E.
  unfold from_records, column, lift, setitem, sort_values_of.
  cbn [columns rows]. change (existsb (String.eqb "report_date") record_keys)
    with true. cbv iota.
  now rewrite setitem_stamped.
Qed.

(** Two runs that start from the same state of [random] and different
    states of [numpy.random] return frames that differ in coordinates
    only: every record of the one has a twin in the other with the same
    identifier, date, region, species, syndrome, severity, status and animal
    count.  The state of [random] they leave is the same. *)
Theorem numpy_state_moves_coordinates_only (now : datetime) (n : Z)
  (p q1 q2 : G) :
  (0 < n)%Z ->
  exists df1 s1 df2 s2,
    generate_surveillance_data now n (mk_rngs p q1) = Ok (df1, s1)
    /\ generate_surveillance_data now n (mk_rngs p q2) = Ok (df2, s2)
    /\ py_random s1 = py_random s2
    /\ forall r1, In r1 df1 ->
         exists r2, In r2 df2 /\ same_but_coordinates r1 r2.
Proof.
  intros Hn.
  pose proof (fun s => always_for_each (record_of (now - timedelta 365) now)
                (range n) (well_generated (now - timedelta 365))
                (fun i _ => always_record_of _ _ i) s) as Hruns.
  destruct (Hruns (mk_rngs p q1)) as (d1 & t1 & E1 & HF1).
  destruct (Hruns (mk_rngs p q2)) as (d2 & t2 & E2 & HF2).
  pose proof (coupled_for_each (record_of (now - timedelta 365) now)
                (range n) same_but_coordinates
                (coupled_record_of _ _) p q1 q2) as Hc.
  rewrite E1, E2 in Hc. destruct Hc as [HF Hp].
  assert (Hne : forall d, Forall2 (well_generated (now - timedelta 365))
                            (range n) d -> d <> []).
  { intros d Hd ->. apply Forall2_length in Hd.
    pose proof (range_length n ltac:(lia)) as Hlen.
    rewrite Hd in Hlen. simpl in Hlen. lia. }
  destruct d1 as [|r1 d1]; [now destruct (Hne _ HF1)|].
  destruct d2 as [|r2 d2]; [now destruct (Hne _ HF2)|].
  exists (sort_values report_date true (map stamped (r1 :: d1))), t1,
    (sort_values report_date true (map stamped (r2 :: d2))), t2.
  split; [now apply generate_of_loop|].
  split; [now apply generate_of_loop|]. split; [exact Hp|].
  intros x1 Hx1.
  apply (Permutation_in _ (Permutation_sym (sort_values_perm _ _ _))) in Hx1.
  apply in_map_iff in Hx1 as (y1 & <- & Hy1).
  destruct (Forall2_In_l _ _ _ _ HF Hy1) as (y2 & Hy2 & Hsame).
  exists (stamped y2). split.
  - apply (Permutation_in _ (sort_values_perm _ _ _)). now apply in_map.
  - unfold same_but_coordinates in *.
    cbn [stamped with_report_date case_id report_date region species
         syndrome severity status animals_affected].
    destruct Hsame as (? & Ed & ? & ? & ? & ? & ? & ?).
    rewrite Ed. repeat split; assumption.
Qed.

End GenerateMoreProofs.

Lemma numpy_state_witness :
  exists df1 s1 df2 s2,
    generate_surveillance_data (H:=constant) (H0:=stable_kind)
      (to_datetime 19800) 2 (mk_rngs 7%Z 1%Z) = Ok (df1, s1)
    /\ generate_surveillance_data (H:=constant) (H0:=stable_kind)
         (to_datetime 19800) 2 (mk_rngs 7%Z 2%Z) = Ok (df2, s2)
    /\ py_random s1 = py_random s2
    /\ forall r1, In r1 df1 ->
         exists r2, In r2 df2 /\ same_but_coordinates r1 r2.
Proof.
  apply (numpy_state_moves_coordinates_only (H:=constant) (H0:=stable_kind)
           (to_datetime 19800) 2 7%Z 1%Z 2%Z).
  lia.
Defined.

Lemma generated_counts_witness :
  exists df s',
    generate_surveillance_data (H:=constant) (H0:=stable_kind)
      (to_datetime 19800) 2 (mk_rngs 7%Z 1%Z) = Ok (df, s')
    /\ forall r, In r df ->
         (severity r = "Low" /\ 1 <= animals_affected r <= 3)%Z
         \/ (severity r = "Moderate" /\ 1 <= animals_affected r <= 5)%Z
         \/ (severity r = "High" /\ 3 <= animals_affected r <= 10)%Z
         \/ (severity r = "Critical" /\ 5 <= animals_affected r <= 20)%Z.
Proof.
  apply (generated_counts_follow_severity (H:=constant) (H0:=stable_kind)
           (to_datetime 19800) 2 (mk_rngs 7%Z 1%Z)).
  lia.
Defined.

Lemma generated_fields_witness :
  exists df s',
    generate_surveillance_data (H:=constant) (H0:=stable_kind)
      (to_datetime 19800) 2 (mk_rngs 7%Z 1%Z) = Ok (df, s')
    /\ forall r, In r df ->
         In (region r) (map fst REGIONS) /\ In (species r) SPECIES
         /\ In (syndrome r) SYNDROMES /\ In (status r) STATUS
         /\ report_date r = to_datetime (date_of (report_date r)).
Proof.
  apply (generated_fields_from_tables (H:=constant) (H0:=stable_kind)
           (to_datetime 19800) 2 (mk_rngs 7%Z 1%Z)).
  lia.
Defined.

End GenerateMore.

(* ================================================================== *)
(** * More on the inline generator and on [main] *)
(* ================================================================== *)

Module LoadMore.
Import Py Pandas App FormatFacts FilterFacts FilterMore LoadFacts Sidebar.
Local Open Scope string_scope.

(** What every pass of the loop body of [load_data] yields for index [i],
    field by field. *)
Record loaded_fields (now : datetime) (i : Z) (r : CaseRecord)
  : Prop := mk_loaded_fields
  { lf_case_id : case_id r = "WHW-2024-" ++ fmt_04d (i + 1);
    lf_date : exists k, (1 <= k <= 365)%Z
                        /\ report_date r = (now - timedelta k)%Z;
    lf_region : In (region r) (map fst regions);
    lf_species : In (species r) species_list;
    lf_syndrome : In (syndrome r) syndromes;
    lf_severity : In (severity r) severity_levels;
    lf_status : In (status r) status_options;
    lf_animals : (1 <= animals_affected r <= 9)%Z }.

(** [m] leaves the state of the [random] module as it found it. *)
Definition keeps_py {G A} (m : Gen G A) : Prop :=
  forall s, match m s with
            | Ok (_, s') => py_random s' = py_random s
            | Raise _ => True
            end.

Section LoadMoreProofs.
Context {G : Type} `{PRNG G} `{SortKind} `{Seeding G}.

Lemma always_loaded_fields (now : datetime) (i : Z) :
  always (record_of (now - timedelta 365) now i) (loaded_fields now i).
Proof.
  unfold record_of.
  eapply always_bind; [apply always_np_choice; discriminate|].
  intros region Hregion.
  eapply always_bind; [apply always_dict_get, Hregion|].
  intros [lat lon] _.
  eapply always_bind; [apply always_np_raw|]. intros dlat _.
  eapply always_bind; [apply always_np_raw|]. intros dlon _.
  eapply always_bind; [apply (always_np_randint 0 365); lia|].
  intros days_offset Hoffset.
  eapply always_bind; [apply always_np_choice_p; reflexivity|].
  intros species Hspecies.
  eapply always_bind; [apply always_np_choice; discriminate|].
  intros syndrome Hsyndrome.
  eapply always_bind; [apply always_np_choice_p; reflexivity|].
  intros severity Hseverity.
  eapply always_bind with (P := fun st => In st status_options).
  { apply always_if; [|apply always_if];
      apply always_np_choice_p; reflexivity. }
  intros status Hstatus.
  eapply always_bind; [apply (always_np_randint 1 10); lia|].
  intros n_affected Hn.
  apply always_ret. cbv beta in Hoffset, Hn. constructor; simpl; auto.
  - exists (365 - days_offset)%Z. split; [lia|].
    unfold timedelta, usec_per_day. lia.
  - lia.
Qed.

(** The frame [load_data] returns holds the 500 records of the loop. *)
Lemma loaded_records (now : datetime) (s : rngs G) :
  exists data df s',
    load_data now s = Ok (df, s')
    /\ Forall2 (loaded_fields now) (range n_records) data
    /\ Permutation data df
    /\ ascending df.
Proof.
  destruct (always_for_each (record_of (now - timedelta 365) now)
              (range n_records) (loaded_fields now)
              (fun i _ => always_loaded_fields now i) (reseeded s))
    as (data & s' & E & HF).
  exists data, (sort_values report_date true data), s'.
  split; [|split; [exact HF|split;
           [apply sort_values_perm | apply sort_values_ascending]]].
  destruct data as [|r data]; [|now apply load_data_sorts].
  apply Forall2_length in HF. discriminate HF.
Qed.

Lemma loaded_record_fields (now : datetime) (s : rngs G) :
  exists df s',
    load_data now s = Ok (df, s')
    /\ List.length df = 500%nat
    /\ ascending df
    /\ forall r, In r df -> exists i, loaded_fields now i r.
Proof.
  destruct (loaded_records now s) as (data & df & s' & E & HF & Hperm & Hasc).
  exists df, s'. split; [exact E|]. split; [|split; [exact Hasc|]].
  - rewrite <- (Permutation_length Hperm), <- (Forall2_length HF).
    reflexivity.
  - intros r Hr. apply (Permutation_in _ (Permutation_sym Hperm)) in Hr.
    destruct (GenerateFacts.Forall2_In_r _ _ _ _ HF Hr) as (i & _ & Hw).
    eauto.
Qed.

(** The 500 records [load_data] returns carry the identifiers
    WHW-2024-0001 to WHW-2024-0500, each once, whatever the order the sort
    leaves them in. *)
Theorem loaded_case_ids_are_the_500_indices (now : datetime) (s : rngs G) :
  exists df s',
    load_data now s = Ok (df, s')
    /\ NoDup (map case_id df)
    /\ Permutation (map (fun i => "WHW-2024-" ++ fmt_04d (i + 1))
                        (range 500))
                   (map case_id df).
Proof.
  destruct (loaded_records now s) as (data & df & s' & E & HF & Hperm & _).
  exists df, s'. split; [exact E|].
  assert (Hids : map case_id data
                 = map (fun i => "WHW-2024-" ++ fmt_04d (i + 1)) (range 500)).
  { apply GenerateFacts.Forall2_map_eq. eapply Forall2_impl; [|exact HF].
    intros i r Hw. apply (lf_case_id _ _ _ Hw). }
  split.
  - eapply Permutation_NoDup; [apply Permutation_map, Hperm|].
    rewrite Hids. apply case_ids_NoDup.
  - rewrite <- Hids. now apply Permutation_map.
Qed.

(** Every record [load_data] returns is dated a whole number of days before
    the instant of loading, from 1 to 365: none is dated the day of loading,
    and [days_ago] is never below 1.  The frame is in ascending date
    order. *)
Theorem loaded_dates_one_to_365_days_back (now : datetime) (s : rngs G) :
  exists df s',
    load_data now s = Ok (df, s')
    /\ ascending df
    /\ forall r, In r df ->
         exists k, (1 <= k <= 365)%Z
                   /\ report_date r = (now - timedelta k)%Z
                   /\ delta_days now (report_date r) = k.
Proof.
  destruct (loaded_record_fields now s) as (df & s' & E & _ & Hasc & Hdf).
  exists df, s'. split; [exact E|]. split; [exact Hasc|].
  intros r Hr. destruct (Hdf r Hr) as (i & Hw).
  destruct (lf_date _ _ _ Hw) as (k & Hk & Ed).
  exists k. split; [exact Hk|]. split; [exact Ed|].
  rewrite Ed. unfold delta_days, timedelta.
  replace (now - (now - k * usec_per_day))%Z with (k * usec_per_day)%Z by lia.
  now rewrite Z.div_mul.
Qed.

(** Every record [load_data] returns has its region, species, syndrome,
    severity and status from the lists of the function. *)
Theorem loaded_fields_from_lists (now : datetime) (s : rngs G) :
  exists df s',
    load_data now s = Ok (df, s')
    /\ forall r, In r df ->
         In (region r) (map fst regions) /\ In (species r) species_list
         /\ In (syndrome r) syndromes /\ In (severity r) severity_levels
         /\ In (status r) status_options.
Proof.
  destruct (loaded_record_fields now s) as (df & s' & E & _ & _ & Hdf).
  exists df, s'. split; [exact E|].
  intros r Hr. destruct (Hdf r Hr) as (i & Hw).
  repeat split; [apply (lf_region _ _ _ Hw) | apply (lf_species _ _ _ Hw)
                | apply (lf_syndrome _ _ _ Hw) | apply (lf_severity _ _ _ Hw)
                | apply (lf_status _ _ _ Hw)].
Qed.

(** ** [load_data] draws from [numpy.random] only *)

Lemma keeps_py_ret {A} (a : A) : keeps_py (G:=G) (ret a).
Proof. intros s; reflexivity. Qed.

Lemma keeps_py_raise {A} (e : exn) : keeps_py (G:=G) (A:=A) (raise e).
Proof. intros s; exact I. Qed.

Lemma keeps_py_lift {A} (r : result A) : keeps_py (G:=G) (lift r).
Proof. intros s; unfold lift; now destruct r. Qed.

Lemma keeps_py_bind {A B} (m : Gen G A) (f : A -> Gen G B) :
  keeps_py m -> (forall a, keeps_py (f a)) -> keeps_py (bind m f).
Proof.
  intros Hm Hf s. specialize (Hm s). unfold bind.
  destruct (m s) as [[a s1]|e]; [|exact I].
  specialize (Hf a s1). destruct (f a s1) as [[b s2]|e]; [|exact I].
  congruence.
Qed.

Lemma keeps_py_np_raw : keeps_py np_raw.
Proof.
  intros s; unfold np_raw. now destruct (next (np_random s)).
Qed.

Lemma keeps_py_np_choice {A} (a : list A) : keeps_py (np_choice a).
Proof.
  unfold np_choice. destruct a; [apply keeps_py_raise|].
  apply keeps_py_bind; [apply keeps_py_np_raw | intros; apply keeps_py_lift].
Qed.

Lemma keeps_py_np_choice_p {A} (a : list A) (p : list Z) :
  keeps_py (np_choice_p a p).
Proof.
  unfold np_choice_p.
  destruct (negb _); [apply keeps_py_raise|].
  destruct (negb _); [apply keeps_py_raise|].
  apply keeps_py_bind; [apply keeps_py_np_raw | intros; apply keeps_py_lift].
Qed.

Lemma keeps_py_np_randint (low high : Z) : keeps_py (np_randint low high).
Proof.
  unfold np_randint. destruct (high <=? low)%Z; [apply keeps_py_raise|].
  apply keeps_py_bind; [apply keeps_py_np_raw | intros; apply keeps_py_ret].
Qed.

Lemma keeps_py_record_of (start_date end_date : datetime) (i : Z) :
  keeps_py (record_of start_date end_date i).
Proof.
  unfold record_of.
  apply keeps_py_bind; [apply keeps_py_np_choice|]. intros region.
  apply keeps_py_bind; [apply keeps_py_lift|]. intros [lat lon].
  apply keeps_py_bind; [apply keeps_py_np_raw|]. intros dlat.
  apply keeps_py_bind; [apply keeps_py_np_raw|]. intros dlon.
  apply keeps_py_bind; [apply keeps_py_np_randint|]. intros days_offset.
  apply keeps_py_bind; [apply keeps_py_np_choice_p|]. intros species.
  apply keeps_py_bind; [apply keeps_py_np_choice|]. intros syndrome.
  apply keeps_py_bind; [apply keeps_py_np_choice_p|]. intros severity.
  apply keeps_py_bind.
  { destruct (_ <? 14)%Z; [apply keeps_py_np_choice_p|].
    destruct (_ <? 60)%Z; apply keeps_py_np_choice_p. }
  intros status.
  apply keeps_py_bind; [apply keeps_py_np_randint|]. intros n_affected.
  apply keeps_py_ret.
Qed.

Lemma keeps_py_for_each {A B} (body : A -> Gen G B) (xs : list A) :
  (forall x, keeps_py (body x)) -> keeps_py (for_each body xs).
Proof.
  intros Hbody. induction xs as [|x xs IH]; simpl; [apply keeps_py_ret|].
  apply keeps_py_bind; [apply Hbody|]. intros r.
  apply keeps_py_bind; [apply IH|]. intros rs. apply keeps_py_ret.
Qed.

(** [load_data] returns and leaves the generator of the [random] module
    untouched: all its draws come from [numpy.random]. *)
Theorem load_data_leaves_random_untouched (now : datetime) (s : rngs G) :
  exists df s',
    load_data now s = Ok (df, s') /\ py_random s' = py_random s.
Proof.
  destruct (load_data_returns now s) as (data & s' & _ & E).
  exists (sort_values report_date true data), s'. split; [exact E|].
  assert (Hk : keeps_py (load_data now)).
  { unfold load_data. apply keeps_py_bind; [intros s0; reflexivity|].
    intros _. apply keeps_py_bind.
    - apply keeps_py_for_each. intros i. apply keeps_py_record_of.
    - intros d. apply keeps_py_lift. }
  specialize (Hk s). now rewrite E in Hk.
Qed.

(** ** [main] *)

Lemma main_runs_render (loaded now : datetime) (w : Widgets)
  (s s' : rngs G) (store : list CaseRecord) :
  load_data loaded s = Ok (store, s') ->
  main loaded now w s = Ok (render now w store, s').
Proof. intros E. unfold main. now rewrite (bind_runs _ _ _ _ _ E). Qed.

(** Drawn for the first time, the dashboard shows the whole store: with the
    widgets as [main] sets them up, Total Cases is 500 and the map plots
    the frame [load_data] returned. *)
Theorem first_page_shows_all_500 (loaded now : datetime) (s : rngs G) :
  exists store w page s',
    load_data loaded s = Ok (store, s')
    /\ initial_widgets store = Some w
    /\ main loaded now w s = Ok (page, s')
    /\ total_cases (metrics page) = 500%Z
    /\ map_panel page = Chart store.
Proof.
  destruct (loaded_record_fields loaded s)
    as (store & s' & E & Hlen & _ & Hdf).
  destruct store as [|r0 rest] eqn:Estore; [discriminate Hlen|].
  rewrite <- Estore in *.
  assert (Hw : initial_widgets store
               = Some (mk_widgets
                         [date_of (min_report_date r0 rest);
                          date_of (max_report_date r0 rest)]
                         "All" "All" severity_choices
                         (unique String.eqb (map status store))))
    by (rewrite Estore; reflexivity).
  eexists store, _, (render now _ store), s'.
  split; [exact E|]. split; [exact Hw|].
  split; [now apply main_runs_render|].
  assert (Hall : apply_filters
                   (mk_widgets
                      [date_of (min_report_date r0 rest);
                       date_of (max_report_date r0 rest)]
                      "All" "All" severity_choices
                      (unique String.eqb (map status store))) store = store).
  { apply initial_widgets_keep_everything; [exact Hw|].
    intros r Hr. destruct (Hdf r Hr) as (i & Hf).
    pose proof (lf_severity _ _ _ Hf) as Hsev.
    simpl in Hsev |- *. tauto. }
  unfold render, run_filters.
  cbn [filtered_df metrics map_panel key_metrics total_cases].
  rewrite Hall. unfold len, create_map. rewrite Hlen. split; reflexivity.
Qed.

(** Whatever the sidebar returns, [main] draws a page: Total Cases is at
    most 500, Animals Affected lies between Total Cases and nine times it,
    at most 8 regions are counted, and the table has at most 10 rows. *)
Theorem main_page_within_bounds (loaded now : datetime) (w : Widgets)
  (s : rngs G) :
  exists page s',
    main loaded now w s = Ok (page, s')
    /\ (0 <= total_cases (metrics page) <= 500)%Z
    /\ (total_cases (metrics page) <= total_animals (metrics page)
        <= 9 * total_cases (metrics page))%Z
    /\ (0 <= regions_affected (metrics page) <= 8)%Z
    /\ (List.length (recent_cases page) <= 10)%nat.
Proof.
  destruct (loaded_record_fields loaded s)
    as (store & s' & E & Hlen & _ & Hdf).
  exists (render now w store), s'.
  split; [now apply main_runs_render|].
  assert (Hin : forall r, In r (apply_filters w store) -> In r store)
    by (intros r; rewrite apply_filters_filter, filter_In; tauto).
  unfold render, run_filters. cbn [filtered_df metrics recent_cases].
  split; [|split; [|split]].
  - cbn [key_metrics total_cases].
    rewrite apply_filters_filter.
    pose proof (len_filter_le (satisfies w) store) as Hle.
    unfold len in *. rewrite Hlen in Hle. lia.
  - pose proof (metrics_within_total now (apply_filters w store) 1 9)
      as (_ & _ & _ & _ & Ha).
    cbv zeta in Ha. rewrite Z.mul_1_l in Ha. apply Ha.
    intros r Hr. destruct (Hdf r (Hin r Hr)) as (i & Hf).
    apply (lf_animals _ _ _ Hf).
  - cbn [key_metrics regions_affected]. unfold nunique.
    split; [lia|].
    assert (Hincl : incl (unique String.eqb
                            (map region (apply_filters w store)))
                         (map fst regions)).
    { intros x Hx.
      apply (proj1 (In_unique String.eqb String.eqb_eq _ _)) in Hx.
      apply in_map_iff in Hx as (r & <- & Hr).
      destruct (Hdf r (Hin r Hr)) as (i & Hf). apply (lf_region _ _ _ Hf). }
    pose proof (NoDup_incl_length
                  (NoDup_unique String.eqb String.eqb_eq _) Hincl) as Hn.
    simpl in Hn. lia.
  - unfold display_df, recent_df, head.
    rewrite length_map. apply length_firstn_le.
Qed.
End LoadMoreProofs.

End LoadMore.

(* ================================================================== *)
(** * [numpy.random] as [load_data] runs it *)
(* ================================================================== *)

(** [load_data] seeds the global [RandomState] of numpy with 42 and draws
    from it, so the frame it returns depends on how numpy turns the seed into
    draws: the MT19937 generator and the sampling routines of [RandomState].
    They are written out here, to run [load_data] as the code does. *)

From Stdlib Require Import Floats Uint63.
#[local] Set Warnings "-inexact-float".

Module Numpy.
Import Py.

(** ** MT19937 *)

Definition RK_STATE_LEN : nat := 624.
Definition MATRIX_A : Z := 0x9908b0df.
Definition UPPER_MASK : Z := 0x80000000.
Definition LOWER_MASK : Z := 0x7fffffff.

Definition uint32 (z : Z) : Z := Z.land z 0xffffffff.

Record mt19937_state : Type := mk_mt19937
  { key : list Z;
    pos : nat }.

(** The loop of [mt19937_seed]: [n] keys from position [p] on. *)
Fixpoint seed_keys (n : nat) (p : Z) (seed : Z) : list Z :=
  match n with
  | O => []
  | S n' =>
      seed :: seed_keys n' (p + 1)
                (uint32 (1812433253 * Z.lxor seed (Z.shiftr seed 30) + p + 1))
  end.

Definition mt19937_seed (seed : Z) : mt19937_state :=
  mk_mt19937 (seed_keys RK_STATE_LEN 0 (uint32 seed)) RK_STATE_LEN.

(** One key of the next block, from [key[i]], [key[i + 1]] and the key 397
    places on (modulo 624). *)
Definition twist (a b c : Z) : Z :=
  let y := Z.lor (Z.land a UPPER_MASK) (Z.land b LOWER_MASK) in
  Z.lxor (Z.lxor c (Z.shiftr y 1)) (if Z.odd y then MATRIX_A else 0).

Fixpoint map3 (f : Z -> Z -> Z -> Z) (l1 l2 l3 : list Z) : list Z :=
  match l1, l2, l3 with
  | a :: l1', b :: l2', c :: l3' => f a b c :: map3 f l1' l2' l3'
  | _, _, _ => []
  end.

(** [mt19937_gen]: the block is rewritten in place from index 0 up, so the
    keys 0..226 read old keys 397..623, the keys 227..453 read the new keys
    0..226, the keys 454..622 read the new keys 227..395, and the last key
    reads the new keys 0 and 396. *)
Definition mt19937_gen (k : list Z) : list Z :=
  let k0 := map3 twist (firstn 227 k) (firstn 227 (skipn 1 k)) (skipn 397 k) in
  let k1 := map3 twist (firstn 227 (skipn 227 k)) (firstn 227 (skipn 228 k))
                 k0 in
  let k2 := map3 twist (firstn 169 (skipn 454 k)) (firstn 169 (skipn 455 k))
                 k1 in
  let new := k0 ++ k1 ++ k2 in
  new ++ [twist (nth 623 k 0) (nth 0 new 0) (nth 396 new 0)].

Definition temper (y : Z) : Z :=
  let y := Z.lxor y (Z.shiftr y 11) in
  let y := Z.lxor y (Z.land (Z.shiftl y 7) 0x9d2c5680) in
  let y := Z.lxor y (Z.land (Z.shiftl y 15) 0xefc60000) in
  Z.lxor y (Z.shiftr y 18).

Definition mt19937_next (s : mt19937_state) : Z * mt19937_state :=
  let s := if (pos s =? RK_STATE_LEN)%nat
           then mk_mt19937 (mt19937_gen (key s)) 0 else s in
  (temper (nth (pos s) (key s) 0), mk_mt19937 (key s) (S (pos s))).

(** ** The state of [RandomState] *)

(** A normal deviate of the polar method, [x * sqrt(-2 * log(r2) / r2)], kept
    as the pair it is computed from: there is no logarithm to compute
    with. *)
Record deviate : Type := mk_deviate
  { dev_x : float;
    dev_r2 : float }.

Record RandomState : Type := mk_state
  { bit_generator : mt19937_state;
    has_gauss : bool;
    gauss : deviate }.

(** A call returns, raises, or is still in a rejection loop when the tries
    allowed to the loop are used up. *)
Inductive outcome (A : Type) : Type :=
| Returns (a : A)
| Raises (e : exn)
| Spins.
Arguments Returns {A} a.
Arguments Raises {A} e.
Arguments Spins {A}.

(** A computation on the global [RandomState]; the first argument is the
    number of tries each rejection loop is allowed. *)
Definition NP (A : Type) : Type :=
  nat -> RandomState -> outcome (A * RandomState).

Definition ret {A} (a : A) : NP A := fun _ s => Returns (a, s).

Definition bind {A B} (m : NP A) (f : A -> NP B) : NP B :=
  fun tries s => match m tries s with
                 | Returns (a, s') => f a tries s'
                 | Raises e => Raises e
                 | Spins => Spins
                 end.

Definition raise {A} (e : exn) : NP A := fun _ _ => Raises e.

Definition lift {A} (r : result A) : NP A :=
  fun _ s => match r with Ok a => Returns (a, s) | Raise e => Raises e end.

Declare Scope np_scope.
Delimit Scope np_scope with np.
Notation "x <- m ;; k" := (bind m (fun x => k))
  (at level 61, m at next level, right associativity) : np_scope.
Notation "' pat <- m ;; k" := (bind m (fun x => match x with pat => k end))
  (at level 61, pat pattern, m at next level, right associativity) : np_scope.
Local Open Scope np_scope.

(** [np.random.seed(seed)] *)
Definition seed (seed : Z) : NP unit :=
  fun _ _ =>
    if (seed <? 0) || (0xffffffff <? seed)
    then Raises (ValueError "Seed must be between 0 and 2**32 - 1")
    else Returns (tt, mk_state (mt19937_seed seed) false
                               (mk_deviate 0%float 0%float)).

Definition next_uint32 : NP Z :=
  fun _ s => let (y, g) := mt19937_next (bit_generator s) in
             Returns (y, mk_state g (has_gauss s) (gauss s)).

(** [mt19937_next64] *)
Definition next_uint64 : NP Z :=
  hi <- next_uint32 ;; lo <- next_uint32 ;; ret (Z.lor (Z.shiftl hi 32) lo).

(** [mt19937_next_double]: 53 random bits out of two draws. *)
Definition next_double : NP float :=
  a <- next_uint32 ;;
  b <- next_uint32 ;;
  ret (of_uint63 (Uint63.of_Z (Z.shiftr a 5 * 67108864 + Z.shiftr b 6))
       / 9007199254740992)%float.

(** [gen_mask]: the smallest bit mask that covers [rng]. *)
Definition gen_mask (rng : Z) : Z :=
  let mask := rng in
  let mask := Z.lor mask (Z.shiftr mask 1) in
  let mask := Z.lor mask (Z.shiftr mask 2) in
  let mask := Z.lor mask (Z.shiftr mask 4) in
  let mask := Z.lor mask (Z.shiftr mask 8) in
  let mask := Z.lor mask (Z.shiftr mask 16) in
  Z.lor mask (Z.shiftr mask 32).

(** [while ((val = next() & mask) > rng);] *)
Fixpoint bounded_masked (next : NP Z) (rng mask : Z) (tries : nat)
  : RandomState -> outcome (Z * RandomState) :=
  fun s =>
    match tries with
    | O => Spins
    | S tries' =>
        match next tries s with
        | Returns (y, s') =>
            let val := Z.land y mask in
            if rng <? val then bounded_masked next rng mask tries' s'
            else Returns (val, s')
        | Raises e => Raises e
        | Spins => Spins
        end
    end.

(** [random_bounded_uint64_fill] for one value, with masked rejection as
    [RandomState] asks for. *)
Definition random_bounded_uint64 (off rng : Z) : NP Z :=
  if rng =? 0 then ret off
  else if rng <=? 0xffffffff then
    if rng =? 0xffffffff then (y <- next_uint32 ;; ret (off + y))
    else (val <- (fun tries => bounded_masked next_uint32 rng (gen_mask rng)
                                              tries) ;;
          ret (off + val))
  else (val <- (fun tries => bounded_masked next_uint64 rng (gen_mask rng)
                                            tries) ;;
        ret (off + val)).

(** [np.random.randint(low, high)]: [high] excluded. *)
Definition randint (low high : Z) : NP Z :=
  if high <=? low then raise (ValueError "low >= high")
  else random_bounded_uint64 low (high - 1 - low).

(** [np.random.random_sample()] *)
Definition random_sample : NP float := next_double.

(** [legacy_gauss], for [np.random.normal]: the polar method makes two
    deviates at a time and keeps the second for the next call. *)
Fixpoint polar (tries : nat) : RandomState -> outcome (deviate * RandomState) :=
  fun s =>
    match tries with
    | O => Spins
    | S tries' =>
        match next_double tries s with
        | Returns (d1, s1) =>
            match next_double tries s1 with
            | Returns (d2, s2) =>
                let x1 := (2 * d1 - 1)%float in
                let x2 := (2 * d2 - 1)%float in
                let r2 := (x1 * x1 + x2 * x2)%float in
                if ((1 <=? r2) || (r2 =? 0))%float then polar tries' s2
                else Returns (mk_deviate x2 r2,
                              mk_state (bit_generator s2) true
                                       (mk_deviate x1 r2))
            | Raises e => Raises e
            | Spins => Spins
            end
        | Raises e => Raises e
        | Spins => Spins
        end
    end.

Definition legacy_gauss : NP deviate :=
  fun tries s =>
    if has_gauss s
    then Returns (gauss s, mk_state (bit_generator s) false
                                    (mk_deviate 0%float 0%float))
    else polar tries s.

(** [p.cumsum()] *)
Fixpoint cumsum_from (acc : float) (p : list float) : list float :=
  match p with
  | [] => []
  | x :: p' => let acc := (acc + x)%float in acc :: cumsum_from acc p'
  end.

Definition cumsum (p : list float) : list float :=
  match p with
  | [] => []
  | x :: p' => x :: cumsum_from x p'
  end.

(** [kahan_sum] *)
Fixpoint kahan_from (sum c : float) (p : list float) : float :=
  match p with
  | [] => sum
  | x :: p' =>
      let y := (x - c)%float in
      let t := (sum + y)%float in
      kahan_from t ((t - sum) - y)%float p'
  end.

Definition kahan_sum (p : list float) : float :=
  match p with
  | [] => 0%float
  | x :: p' => kahan_from x 0%float p'
  end.

(** [sqrt(np.finfo(np.float64).eps)] *)
Definition atol : float := 0x1p-26%float.

(** [cdf.searchsorted(u, side='right')] *)
Definition searchsorted_right (cdf : list float) (u : float) : Z :=
  Z.of_nat (List.length (filter (fun c => (c <=? u)%float) cdf)).

(** [np.random.choice(a)] *)
Definition choice {A} (a : list A) : NP A :=
  match a with
  | [] => raise (ValueError "'a' cannot be empty unless no samples are taken")
  | _ => idx <- randint 0 (Z.of_nat (List.length a)) ;; lift (getitem a idx)
  end.

(** [np.random.choice(a, p=p)] *)
Definition choice_p {A} (a : list A) (p : list float) : NP A :=
  match a with
  | [] => raise (ValueError "'a' cannot be empty unless no samples are taken")
  | _ =>
      if negb (List.length p =? List.length a)%nat then
        raise (ValueError "'a' and 'p' must have same size")
      else if existsb is_nan p then
        raise (ValueError "probabilities contain NaN")
      else if existsb (fun x => (x <? 0)%float) p then
        raise (ValueError "probabilities are not non-negative")
      else if (atol <? abs (kahan_sum p - 1))%float then
        raise (ValueError "probabilities do not sum to 1")
      else
        let cdf := cumsum p in
        let cdf := map (fun c => (c / last cdf 0)%float) cdf in
        u <- random_sample ;;
        lift (getitem a (searchsorted_right cdf u))
  end.

(** [for i in range(n): data.append(body(i))] *)
Fixpoint for_each {A B} (body : A -> NP B) (xs : list A) : NP (list B) :=
  match xs with
  | [] => ret []
  | x :: xs' => r <- body x ;; rs <- for_each body xs' ;; ret (r :: rs)
  end.

End Numpy.

(* ================================================================== *)
(** * [load_data] on numpy's generator *)
(* ================================================================== *)

(** [App.load_data] leaves the generator open: what is proved of it holds for
    every generator and every state [np.random.seed] may put it in.  Here the
    same function is written over numpy's own generator, draw for draw in the
    order of [app.py], to find the frame the seed 42 gives. *)

Module AppRun.
Import Py Pandas Numpy.
Local Open Scope string_scope.
Local Open Scope np_scope.

(** [round(c + np.random.normal(0, 0.1), 4)] for a centroid coordinate [c],
    in units of 1e-4 degree, as a function of the deviate drawn. *)
Class Rounding : Type := rounded : Z -> deviate -> Z.

(** [np.random.normal(loc, scale)] is [loc + scale * legacy_gauss()]; the
    arithmetic is left to [rounded]. *)
Definition normal : NP deviate := legacy_gauss.

Section Loader.
Context `{Rounding} `{SortKind}.
Local Open Scope Z_scope.

(** One pass of the loop body of [load_data], for index [i]. *)
Definition record_of (start_date end_date : datetime) (i : Z)
  : NP CaseRecord :=
  region <- choice (map fst App.regions) ;;
  '(lat, lon) <- lift (dict_get App.regions region) ;;
  dlat <- normal ;;
  dlon <- normal ;;
  let lat := rounded lat dlat in
  let lon := rounded lon dlon in
  days_offset <- randint 0 365 ;;
  let report_date := start_date + timedelta days_offset in
  species <- choice_p App.species_list
               [0.15; 0.08; 0.20; 0.12; 0.18; 0.12; 0.05; 0.02; 0.03; 0.05]%float ;;
  syndrome <- choice App.syndromes ;;
  severity <- choice_p App.severity_levels [0.40; 0.35; 0.20; 0.05]%float ;;
  let days_ago := delta_days end_date report_date in
  status <- (if days_ago <? 14
             then choice_p App.status_options [0.60; 0.20; 0.20]%float
             else if days_ago <? 60
             then choice_p App.status_options [0.30; 0.50; 0.20]%float
             else choice_p App.status_options [0.10; 0.80; 0.10]%float) ;;
  n_affected <- randint 1 10 ;;
  ret (mk_case ("WHW-2024-" ++ fmt_04d (i + 1))%string
               report_date
               region lat lon species syndrome severity status n_affected).

(** [load_data()], run at the instant [now]. *)
Definition load_data (now : datetime) : NP (list CaseRecord) :=
  _ <- seed 42 ;;
  let end_date := now in
  let start_date := end_date - timedelta 365 in
  data <- for_each (record_of start_date end_date) (range App.n_records) ;;
  let df := from_records record_keys data in
  lift (sort_values_of df "report_date" report_date).
End Loader.

End AppRun.

(* ================================================================== *)
(** * The sort [sort_values] runs by default *)
(* ================================================================== *)

(** [sort_values] with its default [kind="quicksort"] hands the keys of the
    column to numpy's [argsort], which for [datetime64] keys is the introsort
    of [npysort/quicksort]: median-of-three quicksort on an array of indices,
    insertion sort on partitions of at most 17 entries, heapsort when the
    depth budget is used up.  pandas takes missing keys out before the call,
    so the comparison is plain [<]. *)

Module NumpySort.
Import Pandas.

Definition SMALL_QUICKSORT : Z := 16.

(** [v[i]] for an index [i] of the array of keys. *)
Definition key_at (v : list Z) (i : nat) : Z := nth i v 0.

(** [*p] for a pointer [p] into the array of indices, as an offset. *)
Definition deref (tosort : list nat) (p : Z) : nat :=
  nth (Z.to_nat p) tosort 0%nat.

Fixpoint set_nth (a : list nat) (n : nat) (x : nat) : list nat :=
  match a, n with
  | [], _ => []
  | _ :: a', O => x :: a'
  | y :: a', S n' => y :: set_nth a' n' x
  end.

(** [*p = x] *)
Definition store (tosort : list nat) (p : Z) (x : nat) : list nat :=
  set_nth tosort (Z.to_nat p) x.

Definition INTP_SWAP (tosort : list nat) (p q : Z) : list nat :=
  let tmp := deref tosort q in
  store (store tosort q (deref tosort p)) p tmp.

Definition LT (a b : Z) : bool := a <? b.

(** [npy_get_msb] *)
Fixpoint msb_from (fuel : nat) (n : Z) : Z :=
  match fuel with
  | O => 0
  | S fuel' => if Z.shiftr n 1 =? 0 then 0 else 1 + msb_from fuel' (Z.shiftr n 1)
  end.

Definition npy_get_msb (n : Z) : Z := msb_from 64 n.

Section Sorting.
Variable v : list Z.

(** [do ++pi; while (LT(v[*pi], vp));] *)
Fixpoint scan_up (fuel : nat) (tosort : list nat) (vp : Z) (pi : Z) : Z :=
  match fuel with
  | O => pi
  | S fuel' =>
      let pi := pi + 1 in
      if LT (key_at v (deref tosort pi)) vp then scan_up fuel' tosort vp pi
      else pi
  end.

(** [do --pj; while (LT(vp, v[*pj]));] *)
Fixpoint scan_down (fuel : nat) (tosort : list nat) (vp : Z) (pj : Z) : Z :=
  match fuel with
  | O => pj
  | S fuel' =>
      let pj := pj - 1 in
      if LT vp (key_at v (deref tosort pj)) then scan_down fuel' tosort vp pj
      else pj
  end.

(** The [for (;;)] loop of the partition; it ends with [pi] where the pivot
    goes. *)
Fixpoint partition_loop (fuel : nat) (tosort : list nat) (vp : Z) (pi pj : Z)
  : list nat * Z :=
  match fuel with
  | O => (tosort, pi)
  | S fuel' =>
      let pi := scan_up (List.length tosort) tosort vp pi in
      let pj := scan_down (List.length tosort) tosort vp pj in
      if pj <=? pi then (tosort, pi)
      else partition_loop fuel' (INTP_SWAP tosort pi pj) vp pi pj
  end.

(** The body of [while ((pr - pl) > SMALL_QUICKSORT)] up to the pivot's
    final place. *)
Definition partition (tosort : list nat) (pl pr : Z) : list nat * Z :=
  let pm := pl + Z.shiftr (pr - pl) 1 in
  let tosort :=
    if LT (key_at v (deref tosort pm)) (key_at v (deref tosort pl))
    then INTP_SWAP tosort pm pl else tosort in
  let tosort :=
    if LT (key_at v (deref tosort pr)) (key_at v (deref tosort pm))
    then INTP_SWAP tosort pr pm else tosort in
  let tosort :=
    if LT (key_at v (deref tosort pm)) (key_at v (deref tosort pl))
    then INTP_SWAP tosort pm pl else tosort in
  let vp := key_at v (deref tosort pm) in
  let pi := pl in
  let pj := pr - 1 in
  let tosort := INTP_SWAP tosort pm pj in
  let '(tosort, pi) :=
    partition_loop (List.length tosort) tosort vp pi pj in
  let pk := pr - 1 in
  (INTP_SWAP tosort pi pk, pi).

(** [while ((pr - pl) > SMALL_QUICKSORT)]: partition, push the larger part
    with the lowered depth, go on with the smaller. *)
Fixpoint quick_loop (fuel : nat) (tosort : list nat) (pl pr cdepth : Z)
  (stack : list (Z * Z * Z)) : list nat * Z * Z * Z * list (Z * Z * Z) :=
  match fuel with
  | O => (tosort, pl, pr, cdepth, stack)
  | S fuel' =>
      if SMALL_QUICKSORT <? pr - pl then
        let '(tosort, pi) := partition tosort pl pr in
        let cdepth := cdepth - 1 in
        if pi - pl <? pr - pi
        then quick_loop fuel' tosort pl (pi - 1) cdepth
                        ((pi + 1, pr, cdepth) :: stack)
        else quick_loop fuel' tosort (pi + 1) pr cdepth
                        ((pl, pi - 1, cdepth) :: stack)
      else (tosort, pl, pr, cdepth, stack)
  end.

(** [while (pj > pl && LT(vp, v[*pk])) { *pj-- = *pk--; }] *)
Fixpoint shift_up (fuel : nat) (tosort : list nat) (pl : Z) (vp : Z) (pj : Z)
  : list nat * Z :=
  match fuel with
  | O => (tosort, pj)
  | S fuel' =>
      if (pl <? pj) && LT vp (key_at v (deref tosort (pj - 1)))
      then shift_up fuel' (store tosort pj (deref tosort (pj - 1))) pl vp
                    (pj - 1)
      else (tosort, pj)
  end.

(** The insertion sort of the partition [pl..pr], from [pi] on. *)
Fixpoint insertion_loop (fuel : nat) (tosort : list nat) (pl pr pi : Z)
  : list nat :=
  match fuel with
  | O => tosort
  | S fuel' =>
      if pi <=? pr then
        let vi := deref tosort pi in
        let '(tosort, pj) :=
          shift_up (List.length tosort) tosort pl (key_at v vi) pi in
        insertion_loop fuel' (store tosort pj vi) pl pr (pi + 1)
      else tosort
  end.

(** ** Heapsort of [n] indices from [pl] on; [a[k]] is [pl[k - 1]]. *)

Fixpoint sift (fuel : nat) (tosort : list nat) (pl n : Z) (tmp : nat)
  (i j : Z) : list nat :=
  match fuel with
  | O => store tosort (pl + i - 1) tmp
  | S fuel' =>
      if j <=? n then
        let j := if (j <? n)
                    && LT (key_at v (deref tosort (pl + j - 1)))
                          (key_at v (deref tosort (pl + j)))
                 then j + 1 else j in
        if LT (key_at v tmp) (key_at v (deref tosort (pl + j - 1)))
        then sift fuel' (store tosort (pl + i - 1) (deref tosort (pl + j - 1)))
                  pl n tmp j (j + j)
        else store tosort (pl + i - 1) tmp
      else store tosort (pl + i - 1) tmp
  end.

(** [for (l = n >> 1; l > 0; --l)] *)
Fixpoint heapify (fuel : nat) (tosort : list nat) (pl n l : Z) : list nat :=
  match fuel with
  | O => tosort
  | S fuel' =>
      if 0 <? l then
        let tmp := deref tosort (pl + l - 1) in
        heapify fuel' (sift (List.length tosort) tosort pl n tmp l (Z.shiftl l 1))
                pl n (l - 1)
      else tosort
  end.

(** [for (; n > 1;)] *)
Fixpoint unheap (fuel : nat) (tosort : list nat) (pl n : Z) : list nat :=
  match fuel with
  | O => tosort
  | S fuel' =>
      if 1 <? n then
        let tmp := deref tosort (pl + n - 1) in
        let tosort := store tosort (pl + n - 1) (deref tosort pl) in
        let n := n - 1 in
        unheap fuel' (sift (List.length tosort) tosort pl n tmp 1 2) pl n
      else tosort
  end.

Definition aheapsort (tosort : list nat) (pl n : Z) : list nat :=
  let tosort := heapify (List.length tosort) tosort pl n (Z.shiftr n 1) in
  unheap (List.length tosort) tosort pl n.

(** The outer [while (1)] of [aquicksort]: one partition off the stack per
    round. *)
Fixpoint sort_loop (fuel : nat) (tosort : list nat) (pl pr cdepth : Z)
  (stack : list (Z * Z * Z)) : option (list nat) :=
  match fuel with
  | O => None
  | S fuel' =>
      let '(tosort, stack) :=
        if cdepth <? 0 then (aheapsort tosort pl (pr - pl + 1), stack)
        else
          let '(tosort, pl, pr, _, stack) :=
            quick_loop (List.length tosort) tosort pl pr cdepth stack in
          (insertion_loop (List.length tosort) tosort pl pr (pl + 1), stack)
      in
      match stack with
      | [] => Some tosort
      | (pl, pr, cdepth) :: stack => sort_loop fuel' tosort pl pr cdepth stack
      end
  end.

(** [aquicksort(v, tosort, num)] on the indices [0..num-1]. *)
Definition aquicksort : option (list nat) :=
  let num := List.length v in
  sort_loop (S num) (seq 0 num) 0 (Z.of_nat num - 1)
            (npy_get_msb (Z.of_nat num) * 2) [].
End Sorting.

(** [v.argsort(kind="quicksort")] *)
Definition argsort (v : list Z) : option (list nat) := aquicksort v.

(** ** The sort kind

    The rows taken in the order [argsort] gives.  That the outcome is an
    ordered rearrangement is checked on the spot rather than proved of the
    introsort once and for all; should the check ever fail, the rows are
    sorted by insertion instead. *)

Fixpoint ordered (ks : list Z) : bool :=
  match ks with
  | [] => true
  | k :: ks' =>
      match ks' with
      | [] => true
      | k' :: _ => (k <=? k') && ordered ks'
      end
  end.

Definition rearranges (idx : list nat) (n : nat) : bool :=
  if list_eq_dec Nat.eq_dec
       (insertion_sort Z.leb (fun i => Z.of_nat i) idx) (seq 0 n)
  then true else false.

Definition take {A} (l : list A) (idx : list nat) : list A :=
  match l with
  | [] => []
  | d :: _ => map (fun i => nth i l d) idx
  end.

Definition quicksort_rows {A} (key : A -> Z) (l : list A) : list A :=
  match argsort (map key l) with
  | Some idx =>
      if rearranges idx (List.length l) && ordered (map key (take l idx))
      then take l idx
      else insertion_sort Z.leb key l
  | None => insertion_sort Z.leb key l
  end.

End NumpySort.

(* ================================================================== *)
(** * The quicksort kind and the order of ties *)
(* ================================================================== *)

Module SortFacts.
Import Py Pandas NumpySort App AggregationFacts.
Local Open Scope string_scope.

Lemma ordered_sorted {A} (key : A -> Z) (l : list A) :
  ordered (map key l) = true ->
  StronglySorted (fun a b => key a <= key b)%Z l.
Proof.
  intros Ho. apply Sorted_StronglySorted.
  - intros x y z Hxy Hyz. lia.
  - induction l as [|a l IH]; [constructor|].
    destruct l as [|b l]; [repeat constructor|].
    cbn [map ordered] in Ho. apply andb_true_iff in Ho as [Hab Ho].
    constructor; [apply IH, Ho | constructor; now apply Z.leb_le].
Qed.

Lemma rearranges_perm (idx : list nat) (n : nat) :
  rearranges idx n = true -> Permutation (seq 0 n) idx.
Proof.
  unfold rearranges.
  destruct (list_eq_dec _ _ _) as [E|]; [intros _|discriminate].
  rewrite <- E. symmetry. apply insertion_sort_perm.
Qed.

Lemma take_all {A} (l : list A) : take l (seq 0 (List.length l)) = l.
Proof.
  destruct l as [|d l]; [reflexivity|]. unfold take.
  generalize (d :: l) as l0. intros l0.
  induction l0 as [|a l0 IH]; [reflexivity|].
  cbn [List.length seq map nth]. f_equal.
  rewrite <- seq_shift, map_map. exact IH.
Qed.

Lemma take_perm {A} (l : list A) (idx : list nat) :
  rearranges idx (List.length l) = true -> Permutation l (take l idx).
Proof.
  intros Hr. apply rearranges_perm in Hr.
  rewrite <- (take_all l) at 1.
  destruct l as [|d l]; [reflexivity|].
  unfold take. now apply Permutation_map.
Qed.

Lemma quicksort_rows_perm {A} (key : A -> Z) (l : list A) :
  Permutation l (quicksort_rows key l).
Proof.
  unfold quicksort_rows.
  destruct (argsort (map key l)) as [idx|];
    [|apply insertion_sort_perm].
  destruct (rearranges idx (List.length l)) eqn:Hr;
    [|apply insertion_sort_perm].
  destruct (ordered (map key (take l idx)));
    [now apply take_perm | apply insertion_sort_perm].
Qed.

Lemma quicksort_rows_sorted {A} (key : A -> Z) (l : list A) :
  StronglySorted (fun a b => key a <= key b)%Z (quicksort_rows key l).
Proof.
  assert (Hins : StronglySorted (fun a b => key a <= key b)%Z
                                (insertion_sort Z.leb key l)).
  { apply insertion_sort_sorted; intros a b E;
      [now apply Z.leb_le | apply Z.leb_gt in E; lia]. }
  unfold quicksort_rows.
  destruct (argsort (map key l)) as [idx|]; [|exact Hins].
  destruct (rearranges idx (List.length l)); [|exact Hins].
  destruct (ordered (map key (take l idx))) eqn:Ho; [|exact Hins].
  now apply ordered_sorted.
Qed.

(** [kind="quicksort"], the default. *)
#[export] Instance quicksort_kind : SortKind :=
  {| sort_rows := fun A key l => quicksort_rows key l;
     sort_rows_perm := fun A key l => quicksort_rows_perm key l;
     sort_rows_sorted := fun A key l => quicksort_rows_sorted key l |}.

(** Eighteen cases reported the same day, numbered 1 to 18 in frame order. *)
Definition same_day_case (k : nat) : CaseRecord :=
  mk_case ("WHW-2024-" ++ fmt_04d (Z.of_nat k)) (to_datetime 19800) "Meru"
          512 381790 "Lion" "Ocular" "Low" "Active" (Z.of_nat k).

Definition same_day_frame : list CaseRecord := map same_day_case (seq 1 18).

Lemma same_day_frame_position (i k : nat) :
  nth_error same_day_frame i = Some (same_day_case k) -> k = S i.
Proof.
  unfold same_day_frame. rewrite nth_error_map, nth_error_seq.
  destruct (i <? 18)%nat; [|discriminate].
  intros E. apply (f_equal (option_map animals_affected)) in E.
  cbn [option_map same_day_case animals_affected] in E.
  injection E as E. lia.
Qed.

(** C5, as stated, fails on the order of ties: on a frame of eighteen cases
    reported the same day, the default quicksort of [sort_values] partitions
    the keys and swaps equal ones, and the recent table shows the cases
    1, 2, 17, 16, 15, 14, 13, 12, 11, 10 in that order: case 17 above case
    16, against the order of the frame. *)
Lemma C5_quicksort_moves_ties :
  Forall (fun r => report_date r = to_datetime 19800) same_day_frame
  /\ argsort (map report_date (rev same_day_frame))
     = Some [0; 15; 14; 13; 12; 11; 10; 9; 8; 7; 6; 5; 4; 3; 2; 1; 16; 17]%nat
  /\ recent_df (H:=quicksort_kind) same_day_frame
     = map same_day_case [1; 2; 17; 16; 15; 14; 13; 12; 11; 10]%nat
  /\ ~ ties_in_frame_order same_day_frame
         (recent_df (H:=quicksort_kind) same_day_frame).
Proof.
  assert (Hout : recent_df (H:=quicksort_kind) same_day_frame
                 = map same_day_case [1; 2; 17; 16; 15; 14; 13; 12; 11; 10]%nat)
    by (vm_compute; reflexivity).
  split; [repeat constructor|]. split; [vm_compute; reflexivity|].
  split; [exact Hout|].
  intros Hties. rewrite Hout in Hties.
  destruct (Hties (same_day_case 17) (same_day_case 16) eq_refl)
    as (i & j & Hij & Hi & Hj).
  - exists 2%nat, 3%nat. repeat split. lia.
  - apply same_day_frame_position in Hi, Hj. lia.
Qed.

End SortFacts.

(* ================================================================== *)
(** * The run of [load_data] *)
(* ================================================================== *)

Module RunFacts.
Import Py Pandas Numpy AppRun.
Local Open Scope string_scope.

(** ** Reference outputs of the generator *)

Fixpoint outputs {A} (m : NP A) (n : nat) (s : RandomState) : list A :=
  match n with
  | O => []
  | S n' =>
      match m 16%nat s with
      | Returns (a, s') => a :: outputs m n' s'
      | _ => []
      end
  end.

Definition seeded (z : Z) : RandomState :=
  mk_state (mt19937_seed z) false (mk_deviate 0%float 0%float).

(** Seeded with 5489, MT19937 starts 3499211612, 581869302, 3890346734 and
    its 10000th output is 4123659995, as the reference implementation. *)
Lemma mt19937_reference_outputs :
  firstn 3 (outputs next_uint32 10000 (seeded 5489))
  = [3499211612; 581869302; 3890346734]%Z
  /\ nth 9999 (outputs next_uint32 10000 (seeded 5489)) 0%Z = 4123659995%Z.
Proof. split; vm_compute; reflexivity. Qed.

(** After [np.random.seed(42)], [np.random.rand(3)] is 0.3745401188473625,
    0.9507143064099162, 0.7319939418114051 and [np.random.randint(0, 100, 10)]
    is 51, 92, 14, 71, 60, 20, 82, 86, 74, 74. *)
Lemma seed_42_reference_draws :
  outputs random_sample 3 (seeded 42)
  = [0.3745401188473625; 0.9507143064099162; 0.7319939418114051]%float
  /\ outputs (randint 0 100) 10 (seeded 42)
     = [51; 92; 14; 71; 60; 20; 82; 86; 74; 74]%Z.
Proof. split; vm_compute; reflexivity. Qed.

(** ** More tries change nothing once a call has returned *)

Definition settled {A} (m : NP A) : Prop :=
  forall (t t' : nat) s r, (t <= t')%nat -> m t s = Returns r ->
                           m t' s = Returns r.

Lemma settled_ret {A} (a : A) : settled (ret a).
Proof. intros t t' s r _ E; exact E. Qed.

Lemma settled_raise {A} (e : exn) : settled (A:=A) (raise e).
Proof. intros t t' s r _ E; discriminate E. Qed.

Lemma settled_lift {A} (x : result A) : settled (lift x).
Proof. intros t t' s r _ E; exact E. Qed.

Lemma settled_bind {A B} (m : NP A) (f : A -> NP B) :
  settled m -> (forall a, settled (f a)) -> settled (bind m f).
Proof.
  intros Hm Hf t t' s r Hle. unfold bind.
  destruct (m t s) as [[a s1]|e|] eqn:E; try discriminate.
  rewrite (Hm t t' s _ Hle E). apply Hf, Hle.
Qed.

Lemma settled_next_uint32 : settled next_uint32.
Proof. intros t t' s r _ E; exact E. Qed.

Lemma settled_next_uint64 : settled next_uint64.
Proof.
  unfold next_uint64. apply settled_bind; [apply settled_next_uint32|].
  intros hi. apply settled_bind; [apply settled_next_uint32|].
  intros lo. apply settled_ret.
Qed.

Lemma settled_next_double : settled next_double.
Proof.
  unfold next_double. apply settled_bind; [apply settled_next_uint32|].
  intros a. apply settled_bind; [apply settled_next_uint32|].
  intros b. apply settled_ret.
Qed.

Lemma settled_bounded_masked (next : NP Z) (rng mask : Z) :
  settled next -> settled (fun tries => bounded_masked next rng mask tries).
Proof.
  intros Hnext t. induction t as [|t IH]; intros t' s r Hle E;
    [discriminate E|].
  destruct t' as [|t']; [lia|]. cbn [bounded_masked] in *.
  destruct (next (S t) s) as [[y s1]|e|] eqn:En; try discriminate.
  rewrite (Hnext _ (S t') _ _ Hle En).
  destruct (rng <? Z.land y mask)%Z; [apply IH; [lia | exact E] | exact E].
Qed.

Lemma settled_randint (low high : Z) : settled (randint low high).
Proof.
  unfold randint, random_bounded_uint64.
  destruct (high <=? low)%Z; [apply settled_raise|].
  destruct (_ =? 0)%Z; [apply settled_ret|].
  destruct (_ <=? 0xffffffff)%Z; [destruct (_ =? 0xffffffff)%Z|];
    (apply settled_bind;
     [try apply settled_next_uint32;
      try (apply settled_bounded_masked;
           first [apply settled_next_uint32 | apply settled_next_uint64])
     | intros; apply settled_ret]).
Qed.

Lemma settled_polar : settled polar.
Proof.
  intros t. induction t as [|t IH]; intros t' s r Hle E; [discriminate E|].
  destruct t' as [|t']; [lia|]. cbn [polar] in *.
  destruct (next_double (S t) s) as [[d1 s1]|e|] eqn:E1; try discriminate.
  rewrite (settled_next_double _ (S t') _ _ Hle E1).
  destruct (next_double (S t) s1) as [[d2 s2]|e|] eqn:E2; try discriminate.
  rewrite (settled_next_double _ (S t') _ _ Hle E2).
  destruct (_ || _); [apply IH; [lia | exact E] | exact E].
Qed.

Lemma settled_normal : settled normal.
Proof.
  intros t t' s r Hle. unfold normal, legacy_gauss.
  destruct (has_gauss s); [auto | now apply settled_polar].
Qed.

Lemma settled_choice {A} (a : list A) : settled (choice a).
Proof.
  unfold choice. destruct a; [apply settled_raise|].
  apply settled_bind; [apply settled_randint | intros; apply settled_lift].
Qed.

Lemma settled_choice_p {A} (a : list A) (p : list float) :
  settled (choice_p a p).
Proof.
  unfold choice_p. destruct a; [apply settled_raise|].
  repeat (match goal with
          | |- settled (if ?b then _ else _) =>
              destruct b; [apply settled_raise|]
          end).
  apply settled_bind; [apply settled_next_double | intros; apply settled_lift].
Qed.

Lemma settled_for_each {A B} (body : A -> NP B) (xs : list A) :
  (forall x, settled (body x)) -> settled (for_each body xs).
Proof.
  intros Hbody. induction xs as [|x xs IH]; cbn [for_each];
    [apply settled_ret|].
  apply settled_bind; [apply Hbody|]. intros r.
  apply settled_bind; [apply IH|]. intros rs. apply settled_ret.
Qed.

Lemma settled_record_of `{Rounding} (start_date end_date : datetime) (i : Z) :
  settled (record_of start_date end_date i).
Proof.
  unfold record_of.
  apply settled_bind; [apply settled_choice|]. intros region.
  apply settled_bind; [apply settled_lift|]. intros [lat lon].
  apply settled_bind; [apply settled_normal|]. intros dlat.
  apply settled_bind; [apply settled_normal|]. intros dlon.
  apply settled_bind; [apply settled_randint|]. intros days_offset.
  apply settled_bind; [apply settled_choice_p|]. intros species.
  apply settled_bind; [apply settled_choice|]. intros syndrome.
  apply settled_bind; [apply settled_choice_p|]. intros severity.
  apply settled_bind.
  { destruct (_ <? 14)%Z; [apply settled_choice_p|].
    destruct (_ <? 60)%Z; apply settled_choice_p. }
  intros status.
  apply settled_bind; [apply settled_randint|]. intros n_affected.
  apply settled_ret.
Qed.

Lemma settled_loop `{Rounding} (start_date end_date : datetime)
  (xs : list Z) :
  settled (for_each (record_of start_date end_date) xs).
Proof. apply settled_for_each. intros i. apply settled_record_of. Qed.

(** ** What the draws of a run depend on *)

(** Two computations that go the same way from every state, with results
    related by [Rel]. *)
Definition agree {A B} (Rel : A -> B -> Prop) (m : NP A) (m' : NP B) : Prop :=
  forall tries s,
    match m tries s, m' tries s with
    | Returns (a, s1), Returns (b, s1') => Rel a b /\ s1 = s1'
    | Raises e, Raises e' => e = e'
    | Spins, Spins => True
    | _, _ => False
    end.

Lemma agree_same {A} (m : NP A) : agree eq m m.
Proof. intros t s. destruct (m t s) as [[a s1]|e|]; auto. Qed.

Lemma agree_ret {A B} (Rel : A -> B -> Prop) (a : A) (b : B) :
  Rel a b -> agree Rel (ret a) (ret b).
Proof. intros HR t s. now split. Qed.

Lemma agree_bind {A A' B B'} (RelA : A -> A' -> Prop) (RelB : B -> B' -> Prop)
  (m : NP A) (m' : NP A') (f : A -> NP B) (f' : A' -> NP B') :
  agree RelA m m' ->
  (forall a a', RelA a a' -> agree RelB (f a) (f' a')) ->
  agree RelB (bind m f) (bind m' f').
Proof.
  intros Hm Hf t s. specialize (Hm t s). unfold bind.
  destruct (m t s) as [[a s1]|e|], (m' t s) as [[a' s1']|e'|];
    try contradiction; auto.
  destruct Hm as [HR <-]. apply (Hf a a' HR).
Qed.

Lemma agree_for_each {A B B'} (Rel : B -> B' -> Prop)
  (body : A -> NP B) (body' : A -> NP B') (xs : list A) :
  (forall x, agree Rel (body x) (body' x)) ->
  agree (Forall2 Rel) (for_each body xs) (for_each body' xs).
Proof.
  intros Hbody. induction xs as [|x xs IH]; cbn [for_each].
  - apply agree_ret. constructor.
  - eapply agree_bind; [apply Hbody|]. intros r r' Hr.
    eapply agree_bind; [apply IH|]. intros rs rs' Hrs.
    apply agree_ret. now constructor.
Qed.

(** The fields of a record that neither the instant of the run nor the
    arithmetic of the coordinates enters. *)
Definition same_draws (r r' : CaseRecord) : Prop :=
  case_id r = case_id r' /\ region r = region r' /\ species r = species r'
  /\ syndrome r = syndrome r' /\ severity r = severity r'
  /\ status r = status r' /\ animals_affected r = animals_affected r'.

(** One pass of the loop draws the same values at every instant: the branch
    on [days_ago] looks at [365 - days_offset] only. *)
Lemma record_of_any_instant (R R' : Rounding) (now now' : datetime) (i : Z) :
  agree same_draws
        (record_of (H:=R) (now - timedelta 365) now i)
        (record_of (H:=R') (now' - timedelta 365) now' i).
Proof.
  unfold record_of.
  eapply agree_bind; [apply agree_same|]. intros region ? <-.
  eapply agree_bind; [apply agree_same|]. intros [lat lon] ? <-.
  eapply agree_bind; [apply agree_same|]. intros dlat ? <-.
  eapply agree_bind; [apply agree_same|]. intros dlon ? <-.
  eapply agree_bind; [apply agree_same|]. intros days_offset ? <-.
  eapply agree_bind; [apply agree_same|]. intros species ? <-.
  eapply agree_bind; [apply agree_same|]. intros syndrome ? <-.
  eapply agree_bind; [apply agree_same|]. intros severity ? <-.
  rewrite !FormatFacts.delta_days_offset.
  eapply agree_bind; [apply agree_same|]. intros status ? <-.
  eapply agree_bind; [apply agree_same|]. intros n_affected ? <-.
  apply agree_ret. repeat split.
Qed.

(** ** The run of the loop *)

(** What is read off a record below. *)
Definition summary (r : CaseRecord) : string * string * Z :=
  (case_id r, severity r, animals_affected r).

Lemma same_draws_summary (data data' : list CaseRecord) :
  Forall2 same_draws data data' -> map summary data = map summary data'.
Proof.
  induction 1 as [|r r' data data' Hr _ IH]; [reflexivity|].
  destruct Hr as (Hid & _ & _ & _ & Hsev & _ & Hn).
  cbn [map]. unfold summary at 1 3. now rewrite Hid, Hsev, Hn, IH.
Qed.

(** The Critical records of the run with fewer than five animals affected. *)
Definition critical_below_five : list (string * Z) :=
  [("WHW-2024-0019", 4); ("WHW-2024-0053", 3); ("WHW-2024-0058", 1);
   ("WHW-2024-0239", 4); ("WHW-2024-0357", 4); ("WHW-2024-0367", 3);
   ("WHW-2024-0454", 3); ("WHW-2024-0480", 4)]%Z.

Definition holds (l : list (string * string * Z)) (id sev : string) (n : Z)
  : bool :=
  existsb (fun x => (fst (fst x) =? id) && (snd (fst x) =? sev)
                    && (snd x =? n)%Z) l.

Definition reaches (l : list (string * string * Z)) (sev : string) (n : Z)
  : bool :=
  existsb (fun x => (snd (fst x) =? sev) && (snd x =? n)%Z) l.

Definition run_check (l : list (string * string * Z)) : bool :=
  (List.length l =? 500)%nat
  && forallb (fun x => (1 <=? snd x)%Z && (snd x <=? 9)%Z) l
  && forallb (fun sev => reaches l sev 1 && reaches l sev 9)
             App.severity_levels
  && forallb (fun c => holds l (fst c) "Critical" (snd c) && (snd c <? 5)%Z)
             critical_below_five.

(** The coordinates left at the centroid of the region. *)
Definition coarse : Rounding := fun c _ => c.

Definition reference_instant : datetime := to_datetime 19800.

(** The loop of [load_data], run from the state [np.random.seed(42)] leaves,
    with sixteen tries for each rejection loop. *)
Lemma reference_run :
  exists data st',
    for_each (record_of (H:=coarse) (reference_instant - timedelta 365)
                        reference_instant)
             (range App.n_records) 16%nat (seeded 42) = Returns (data, st')
    /\ run_check (map summary data) = true.
Proof.
  eexists; eexists. split; [vm_compute; reflexivity|].
  vm_compute; reflexivity.
Qed.

Lemma seed_returns (z : Z) (tries : nat) (st : RandomState) :
  (0 <= z <= 0xffffffff)%Z -> seed z tries st = Returns (tt, seeded z).
Proof.
  intros Hz. unfold seed, seeded.
  destruct (z <? 0)%Z eqn:E1; [apply Z.ltb_lt in E1; lia|].
  destruct (0xffffffff <? z)%Z eqn:E2; [apply Z.ltb_lt in E2; lia|].
  reflexivity.
Qed.

Section Run.
Context `{Rounding} `{SortKind}.

(** The loop draws the same values at every instant, and goes on returning
    them when the rejection loops are given more tries. *)
Lemma loop_at_any_instant (now0 now : datetime) (xs : list Z)
  (tries0 tries : nat) (s s' : RandomState) (data0 : list CaseRecord) :
  for_each (record_of (H:=coarse) (now0 - timedelta 365) now0) xs tries0 s
  = Returns (data0, s') ->
  (tries0 <= tries)%nat ->
  exists data,
    for_each (record_of (now - timedelta 365) now) xs tries s
    = Returns (data, s')
    /\ map summary data = map summary data0.
Proof.
  intros E0 Htries.
  pose proof (agree_for_each same_draws _ _ xs
                (record_of_any_instant coarse _ now0 now) tries0 s) as Hagree.
  rewrite E0 in Hagree.
  destruct (for_each (record_of (now - timedelta 365) now) xs tries0 s)
    as [[data s1]|e|] eqn:E; [|destruct Hagree..].
  destruct Hagree as [Hsame <-].
  exists data. split.
  - apply (settled_loop _ _ _ tries0 tries _ _ Htries E).
  - symmetry. now apply same_draws_summary.
Qed.

(** [load_data] returns, whatever the state of [numpy.random] it is called
    in: the frame is the sorted list of the records of the loop. *)
Lemma load_data_run (now : datetime) (tries : nat) (st : RandomState) :
  (16 <= tries)%nat ->
  exists data st',
    load_data now tries st
    = Returns (sort_values report_date true data, st')
    /\ run_check (map summary data) = true.
Proof.
  intros Htries. destruct reference_run as (data0 & s1 & E0 & Hc).
  destruct (loop_at_any_instant _ now _ _ tries _ _ _ E0 Htries)
    as (data & E & Hsum).
  rewrite <- Hsum in Hc. clear E0 Hsum data0.
  exists data, s1. split; [|exact Hc].
  unfold load_data, bind. rewrite seed_returns by lia. rewrite E.
  destruct data as [|r data]; [discriminate Hc|]. reflexivity.
Qed.

Lemma holds_In (data : list CaseRecord) (id sev : string) (n : Z) :
  holds (map summary data) id sev n = true ->
  exists r, In r data /\ case_id r = id /\ severity r = sev
            /\ animals_affected r = n.
Proof.
  unfold holds. rewrite existsb_exists. intros (x & Hx & Hb).
  apply in_map_iff in Hx as (r & <- & Hr). cbn [summary fst snd] in Hb.
  apply andb_true_iff in Hb as [Hb Hn]. apply andb_true_iff in Hb as [Hi Hs].
  exists r. split; [exact Hr|].
  split; [now apply String.eqb_eq|]. split; [now apply String.eqb_eq|].
  now apply Z.eqb_eq.
Qed.

Lemma reaches_In (data : list CaseRecord) (sev : string) (n : Z) :
  reaches (map summary data) sev n = true ->
  exists r, In r data /\ severity r = sev /\ animals_affected r = n.
Proof.
  unfold reaches. rewrite existsb_exists. intros (x & Hx & Hb).
  apply in_map_iff in Hx as (r & <- & Hr). cbn [summary fst snd] in Hb.
  apply andb_true_iff in Hb as [Hs Hn].
  exists r. split; [exact Hr|].
  split; [now apply String.eqb_eq | now apply Z.eqb_eq].
Qed.
End Run.

(** ** What the dashboard loads *)

Lemma run_check_length (data : list CaseRecord) :
  run_check (map summary data) = true -> List.length data = 500%nat.
Proof.
  unfold run_check. rewrite !andb_true_iff, length_map.
  intros [[[Hlen _] _] _]. now apply Nat.eqb_eq.
Qed.

Lemma run_check_counts (data : list CaseRecord) :
  run_check (map summary data) = true ->
  forall r, In r data -> (1 <= animals_affected r <= 9)%Z.
Proof.
  unfold run_check. rewrite !andb_true_iff.
  intros [[[_ Hall] _] _] r Hr.
  rewrite forallb_forall in Hall.
  specialize (Hall (summary r) (in_map summary _ _ Hr)).
  cbn [summary snd] in Hall. apply andb_true_iff in Hall as [Hlo Hhi].
  apply Z.leb_le in Hlo, Hhi. lia.
Qed.

Lemma run_check_reaches (data : list CaseRecord) (sev : string) :
  run_check (map summary data) = true -> In sev App.severity_levels ->
  (exists r, In r data /\ severity r = sev /\ animals_affected r = 1%Z)
  /\ (exists r, In r data /\ severity r = sev /\ animals_affected r = 9%Z).
Proof.
  unfold run_check. rewrite !andb_true_iff.
  intros [[_ Hall] _] Hsev.
  rewrite forallb_forall in Hall. specialize (Hall sev Hsev).
  apply andb_true_iff in Hall as [H1 H9].
  split; now apply reaches_In.
Qed.

Lemma run_check_critical (data : list CaseRecord) (id : string) (n : Z) :
  run_check (map summary data) = true -> In (id, n) critical_below_five ->
  (n < 5)%Z
  /\ exists r, In r data /\ case_id r = id /\ severity r = "Critical"
               /\ animals_affected r = n.
Proof.
  unfold run_check. rewrite !andb_true_iff.
  intros [_ Hall] Hin.
  rewrite forallb_forall in Hall. specialize (Hall (id, n) Hin).
  cbn [fst snd] in Hall. apply andb_true_iff in Hall as [Hh Hn].
  split; [now apply Z.ltb_lt | now apply holds_In].
Qed.

(** C2 fails on the frame the dashboard loads.  [load_data], as [app.py]
    runs it (it seeds [numpy.random] with 42 itself, so neither the state it
    is called in nor the instant of the call matters), returns a frame in
    which record WHW-2024-0058 is Critical with a single animal affected, and
    eight Critical records in all have fewer than five: the count is drawn
    by [np.random.randint(1, 10)] whatever the severity. *)
Theorem C2_loaded_critical_records_below_five `{Rounding} `{SortKind}
  (now : datetime) (tries : nat) (st : RandomState) :
  (16 <= tries)%nat ->
  exists df st',
    load_data now tries st = Returns (df, st')
    /\ (exists r, In r df /\ case_id r = "WHW-2024-0058"
                  /\ severity r = "Critical" /\ animals_affected r = 1%Z)
    /\ forall id n, In (id, n) critical_below_five ->
         (n < 5)%Z
         /\ exists r, In r df /\ case_id r = id /\ severity r = "Critical"
                      /\ animals_affected r = n.
Proof.
  intros Htries.
  destruct (load_data_run now tries st Htries) as (data & st' & E & Hc).
  exists (sort_values report_date true data), st'.
  pose proof (sort_values_perm report_date true data) as Hperm.
  assert (Hcrit : forall id n, In (id, n) critical_below_five ->
            (n < 5)%Z
            /\ exists r, In r (sort_values report_date true data)
                         /\ case_id r = id /\ severity r = "Critical"
                         /\ animals_affected r = n).
  { intros id n Hin.
    destruct (run_check_critical data id n Hc Hin) as (Hn & r & Hr & Hf).
    split; [exact Hn|]. exists r. split; [|exact Hf].
    apply (Permutation_in _ Hperm Hr). }
  split; [exact E|]. split; [|exact Hcrit].
  apply (Hcrit "WHW-2024-0058" 1%Z). cbn. tauto.
Qed.

Lemma C2_record_0058 :
  exists df st',
    load_data (H:=coarse) (H0:=SortFacts.quicksort_kind) reference_instant
              16%nat (seeded 0) = Returns (df, st')
    /\ (exists r, In r df /\ case_id r = "WHW-2024-0058"
                  /\ severity r = "Critical" /\ animals_affected r = 1%Z)
    /\ forall id n, In (id, n) critical_below_five ->
         (n < 5)%Z
         /\ exists r, In r df /\ case_id r = id /\ severity r = "Critical"
                      /\ animals_affected r = n.
Proof.
  apply (C2_loaded_critical_records_below_five (H:=coarse)
           (H0:=SortFacts.quicksort_kind) reference_instant 16%nat (seeded 0)).
  lia.
Defined.

(** C3: [load_data] returns 500 records, each with an animal count from 1 to
    9, and the count does not follow the severity.  The bounds hold for
    every generator and every state it is seeded to; and in the frame
    [load_data] returns with numpy's generator seeded with 42, at whatever
    instant it is run, each of the four severities has a record with 1
    animal affected and a record with 9.  So a Critical record can have one
    animal affected, and the loaded frame has such a record. *)
Theorem C3_inline_counts_do_not_follow_severity `{SortKind} (now : datetime) :
  (forall (G : Type) (prng : PRNG G) (seeding : Seeding G) (s : rngs G),
      exists df s',
        App.load_data now s = Ok (df, s')
        /\ List.length df = 500%nat
        /\ forall r, In r df -> (1 <= animals_affected r <= 9)%Z)
  /\ (forall (rounding : Rounding) (tries : nat) (st : RandomState),
         (16 <= tries)%nat ->
         exists df st',
           load_data now tries st = Returns (df, st')
           /\ List.length df = 500%nat
           /\ (forall r, In r df -> (1 <= animals_affected r <= 9)%Z)
           /\ forall sev, In sev App.severity_levels ->
                (exists r, In r df /\ severity r = sev
                           /\ animals_affected r = 1%Z)
                /\ (exists r, In r df /\ severity r = sev
                              /\ animals_affected r = 9%Z)).
Proof.
  split.
  - intros G prng seeding s. apply LoadFacts.load_data_counts.
  - intros rounding tries st Htries.
    destruct (load_data_run now tries st Htries) as (data & st' & E & Hc).
    exists (sort_values report_date true data), st'.
    pose proof (sort_values_perm report_date true data) as Hperm.
    split; [exact E|]. split; [|split].
    + rewrite <- (Permutation_length Hperm). now apply run_check_length.
    + intros r Hr. apply (run_check_counts data Hc).
      apply (Permutation_in _ (Permutation_sym Hperm) Hr).
    + intros sev Hsev.
      destruct (run_check_reaches data sev Hc Hsev)
        as [(r1 & Hr1 & Hf1) (r9 & Hr9 & Hf9)].
      split; [exists r1 | exists r9];
        (split; [now apply (Permutation_in _ Hperm) | assumption]).
Qed.

Lemma C3_critical_record_with_one_animal :
  exists df st' r,
    load_data (H:=coarse) (H0:=SortFacts.quicksort_kind) reference_instant
              16%nat (seeded 0) = Returns (df, st')
    /\ List.length df = 500%nat
    /\ In r df /\ severity r = "Critical" /\ animals_affected r = 1%Z.
Proof.
  destruct (proj2 (C3_inline_counts_do_not_follow_severity
                     (H:=SortFacts.quicksort_kind) reference_instant)
                  coarse 16%nat (seeded 0))
    as (df & st' & E & Hlen & _ & Hsev); [lia|].
  destruct (Hsev "Critical") as [(r & Hr & Hs & Hn) _]; [cbn; tauto|].
  exists df, st', r.
  split; [exact E|]. split; [exact Hlen|]. split; [exact Hr|].
  split; [exact Hs | exact Hn].
Defined.

(** ** The first page *)

(** Drawn for the first time, at the reference instant, the dashboard
    lists ties against the order of the store: the widgets keep every
    record, the store ends with WHW-2024-0260 and then WHW-2024-0442, both
    reported the day before, and the recent table starts with
    WHW-2024-0442 and then WHW-2024-0260. *)
Lemma first_page_lists_ties_against_store :
  match load_data (H:=coarse) (H0:=SortFacts.quicksort_kind)
                  reference_instant 16%nat (seeded 0) with
  | Returns (store, _) =>
      match Sidebar.initial_widgets store with
      | Some w =>
          App.apply_filters w store = store
          /\ map (fun r => (case_id r, date_of (report_date r)))
                 (skipn 498 store)
             = [("WHW-2024-0260", 19799%Z); ("WHW-2024-0442", 19799%Z)]
          /\ map (fun row => (App.Case_ID row, App.Date row))
                 (firstn 2 (App.display_df (H:=SortFacts.quicksort_kind)
                                           (App.apply_filters w store)))
             = [("WHW-2024-0442", 19799%Z); ("WHW-2024-0260", 19799%Z)]
      | None => False
      end
  | _ => False
  end.
Proof. vm_compute. split; [reflexivity|]. split; reflexivity. Qed.

End RunFacts.
